(** * fastRAG agent construction: [fastrag/agents/create_agent.py]

    A shallow embedding of the module that builds the conversational
    agent: the enhanced tools manager (dispatch with an execution
    history), the enhanced conversation memory, the generator loader,
    the tool-registration loop and the in-place prompt-template
    substitution.  Python objects that are mutated in place are modelled
    by explicit state passing; exceptions by the [Outcome] type. *)

From Stdlib Require Import String Ascii List ZArith Bool Lia.
From stdpp Require Import base option list strings gmap.

Import ListNotations.
Set Warnings "-register-all".
Local Open Scope string_scope.
Local Open Scope list_scope.

(** ** Python values, dictionaries and exceptions *)

(** Values that flow through the module opaquely: YAML configuration data,
    tool keyword arguments and tool results.  [PRef] is a reference to a
    mutable object of the heap (identity matters, not contents). *)
Inductive PyVal : Type :=
| PNone
| PInt (z : Z)
| PStr (s : string)
| PList (l : list PyVal)
| PDict (d : list (string * PyVal))
| PRef (l : nat).

(** A Python [dict] with string keys.  Insertion order is part of the value
    ([dict.values()] follows it), so it is an association list without
    repeated keys.  The operations are stated for any key type with a
    decidable equality. *)
Definition PyDict (V : Type) : Type := list (string * V).

Fixpoint dict_get {K V : Type} `{EqDecision K} (d : list (K * V)) (k : K)
  : option V :=
  match d with
  | [] => None
  | (k', v) :: rest => if decide (k' = k) then Some v else dict_get rest k
  end.

(** [d[k] = v]: an existing key keeps its position and gets the new value,
    a new key goes last. *)
Fixpoint dict_set {K V : Type} `{EqDecision K} (d : list (K * V)) (k : K)
    (v : V) : list (K * V) :=
  match d with
  | [] => [(k, v)]
  | (k', v') :: rest =>
      if decide (k' = k) then (k', v) :: rest else (k', v') :: dict_set rest k v
  end.

Definition dict_contains {K V : Type} `{EqDecision K} (d : list (K * V))
    (k : K) : bool :=
  match dict_get d k with Some _ => true | None => false end.

Definition dict_keys {K V : Type} (d : list (K * V)) : list K := map fst d.
Definition dict_values {K V : Type} (d : list (K * V)) : list V := map snd d.

(** Exceptions.  [BaseExceptionOnly] stands for the classes that derive
    from [BaseException] only ([KeyboardInterrupt], [SystemExit], ...),
    which [except Exception] does not catch.  [Unmodelled] is not a Python
    exception: it marks an input on which this embedding makes no
    prediction (see [str_format]). *)
Inductive Exn : Type :=
| KeyError (key : PyVal)
| IndexError
| ValueError
| TypeError
| AttributeError
| Unmodelled
| UnknownToolError (tool_name : string)
| OtherException (cls : string) (str : string)
| BaseExceptionOnly (cls : string) (str : string).

Definition is_Exception (e : Exn) : bool :=
  match e with
  | BaseExceptionOnly _ _ => false
  | _ => true
  end.

Inductive Outcome (A : Type) : Type :=
| Returned (a : A)
| Raised (e : Exn).
Arguments Returned {A} a.
Arguments Raised {A} e.

Definition bind {A B : Type} (m : Outcome A) (f : A -> Outcome B) : Outcome B :=
  match m with
  | Returned a => f a
  | Raised e => Raised e
  end.

Declare Scope py_scope.
Delimit Scope py_scope with py.
Notation "'let*' x ':=' m 'in' k" := (bind m (fun x => k))
  (at level 10, x pattern, m at level 100, k at level 200) : py_scope.
Local Open Scope py_scope.

(** [d[k]] on a dict: [KeyError] when the key is missing. *)
Definition getitem {V : Type} (d : PyDict V) (k : string) : Outcome V :=
  match dict_get d k with
  | Some v => Returned v
  | None => Raised (KeyError (PStr k))
  end.

(** [v[k]] on a configuration value: only a mapping can be indexed by a
    string. *)
Definition subscript (v : PyVal) (k : string) : Outcome PyVal :=
  match v with
  | PDict d => getitem d k
  | _ => Raised TypeError
  end.

(** What [print] receives.  An f-string with one interpolated value is kept
    unrendered: the literal prefix and the value handed to [str]. *)
Inductive Printed : Type :=
| PrintFmt (prefix : string) (v : PyVal)
| PrintExn (prefix : string) (e : Exn).

Definition Stdout : Type := list Printed.

(** [DEBUG_MODE = True] at module level; nothing assigns it again. *)
Definition DEBUG_MODE : bool := true.

(** What [print] does with a line where the dispatcher calls it: the line
    is written, or an exception is raised (by [str] of the error, by the
    rendering of the inputs or by the stream: a text that the encoding of
    the stream refuses, a closed stream) and nothing is written.  A
    console gives, for each line, the exception that printing it raises,
    if any. *)
Definition Console : Type := Printed -> option Exn.

(** The console on which every line can be printed. *)
Definition reliable : Console := fun _ => None.

(** [print(line)] *)
Definition print_line (console : Console) (line : Printed) (out : Stdout)
  : Outcome unit * Stdout :=
  match console line with
  | None => (Returned tt, out ++ [line])
  | Some e => (Raised e, out)
  end.

(** ** The tools manager *)

(** A tool as the dispatcher sees it: a name, a description and a
    capability called with keyword arguments. *)
Record Tool : Type := mkTool {
  name : string;
  description : string;
  invoke : PyDict PyVal -> Outcome PyVal
}.

(** Modelled from the spec: the base class [ToolsManager] of
    [fastrag.agents.base] is not part of this module.  Its registry maps
    tool names to tools; dispatch by name fails with [UnknownToolError] on
    an absent name and otherwise calls the capability of the tool with the
    keyword arguments. *)
Definition ToolsManager_execute_tool (tools : gmap string Tool)
    (tool_name : string) (kwargs : PyDict PyVal) : Outcome PyVal :=
  match tools !! tool_name with
  | None => Raised (UnknownToolError tool_name)
  | Some t => invoke t kwargs
  end.

(** [class EnhancedToolsManager(ToolsManager)]: the inherited registry, the
    debug flag and the execution history, a list of dict records. *)
Record EnhancedToolsManager : Type := mkManager {
  tools : gmap string Tool;
  debug_mode : bool;
  tool_execution_history : list (PyDict PyVal)
}.

(** [EnhancedToolsManager.__init__(self, tools, debug_mode=False)].  The
    constructor of the base class, which builds the registry from the list
    of tools, is a parameter. *)
Definition EnhancedToolsManager_init
    (super_init : list Tool -> Outcome (gmap string Tool))
    (ts : list Tool) (debug : bool) : Outcome EnhancedToolsManager :=
  let* registry := super_init ts in
  Returned {| tools := registry; debug_mode := debug;
              tool_execution_history := [] |}.

(** The record appended after a successful dispatch. *)
Definition success_record (tool_name : string) (kwargs : PyDict PyVal)
    (result : PyVal) : PyDict PyVal :=
  [ ("tool", PStr tool_name);
    ("inputs", PDict kwargs);
    ("result", result);
    ("status", PStr "success") ].

(** The two lines of the handler. *)
Definition error_line (e : Exn) : Printed :=
  PrintExn "Tool execution error: " e.

Definition inputs_line (kwargs : PyDict PyVal) : Printed :=
  PrintFmt "Tool inputs: " (PDict kwargs).

(** Both lines of the handler can be printed on the console. *)
Definition prints_succeed (console : Console) (e : Exn)
    (kwargs : PyDict PyVal) : Prop :=
  console (error_line e) = None /\ console (inputs_line kwargs) = None.

(** [EnhancedToolsManager.execute_tool(self, tool_name, **kwargs)].
    Returns the outcome, the manager after the call and the standard
    output after the call.  In the handler the two prints come before the
    bare [raise]: an exception raised by one of them leaves the handler
    in the place of the caught one, and the later statements of the
    handler are not run. *)
Definition execute_tool (console : Console) (self : EnhancedToolsManager)
    (tool_name : string) (kwargs : PyDict PyVal) (out : Stdout)
  : Outcome PyVal * EnhancedToolsManager * Stdout :=
  match ToolsManager_execute_tool (tools self) tool_name kwargs with
  | Returned result =>
      (Returned result,
       {| tools := tools self; debug_mode := debug_mode self;
          tool_execution_history :=
            tool_execution_history self
              ++ [success_record tool_name kwargs result] |},
       out)
  | Raised e =>
      if is_Exception e then
        if debug_mode self then
          match print_line console (error_line e) out with
          | (Raised e1, out1) => (Raised e1, self, out1)
          | (Returned _, out1) =>
              match print_line console (inputs_line kwargs) out1 with
              | (Raised e2, out2) => (Raised e2, self, out2)
              | (Returned _, out2) => (Raised e, self, out2)
              end
          end
        else (Raised e, self, out)
      else (Raised e, self, out)
  end.

(** ** The conversation memory *)

(** The heap of mutable dict objects that are shared by reference; a
    location is an index into it. *)
Definition Heap : Type := list (PyDict PyVal).

Definition alloc (h : Heap) (d : PyDict PyVal) : nat * Heap :=
  (length h, h ++ [d]).

(** [class EnhancedConversationMemory(ConversationMemory)].  The base class
    is not part of this module; [memory_generator] is what its constructor
    was handed.  [user_data] and [system_configs] are references to dict
    objects of the heap, [tool_history] is the list the memory owns. *)
Record EnhancedConversationMemory (G : Type) : Type := mkMemory {
  memory_generator : G;
  tool_history : list (PyDict PyVal);
  user_data : nat;
  system_configs : nat
}.
Arguments mkMemory {G}.
Arguments memory_generator {G}.
Arguments tool_history {G}.
Arguments user_data {G}.
Arguments system_configs {G}.

(** [EnhancedConversationMemory.__init__(self, generator)] *)
Definition EnhancedConversationMemory_init {G : Type} (generator : G)
    (h : Heap) : EnhancedConversationMemory G * Heap :=
  let '(ud, h1) := alloc h [] in
  let '(sc, h2) := alloc h1 [] in
  ({| memory_generator := generator; tool_history := [];
      user_data := ud; system_configs := sc |}, h2).

Definition optional_dict (metadata : option (PyDict PyVal)) : PyVal :=
  match metadata with
  | Some d => PDict d
  | None => PNone
  end.

(** The dict appended by [add_interaction]. *)
Definition interaction_record {G : Type} (self : EnhancedConversationMemory G)
    (query response : string) (metadata : option (PyDict PyVal))
  : PyDict PyVal :=
  [ ("query", PStr query);
    ("response", PStr response);
    ("metadata", optional_dict metadata);
    ("system_config", PRef (system_configs self)) ].

(** [EnhancedConversationMemory.add_interaction(self, query, response,
    metadata=None)] *)
Definition add_interaction {G : Type} (self : EnhancedConversationMemory G)
    (query response : string) (metadata : option (PyDict PyVal))
    (out : Stdout) : EnhancedConversationMemory G * Stdout :=
  let out' :=
    if DEBUG_MODE then
      out ++ [PrintFmt "Query: " (PStr query);
              PrintFmt "Metadata: " (optional_dict metadata)]
    else out in
  ({| memory_generator := memory_generator self;
      tool_history :=
        tool_history self
          ++ [interaction_record self query response metadata];
      user_data := user_data self;
      system_configs := system_configs self |}, out').

(** One call of [add_interaction], as data. *)
Record Interaction : Type := mkInteraction {
  i_query : string;
  i_response : string;
  i_metadata : option (PyDict PyVal)
}.

(** A session: [add_interaction] once per element, in order. *)
Fixpoint add_interactions {G : Type} (self : EnhancedConversationMemory G)
    (calls : list Interaction) (out : Stdout)
  : EnhancedConversationMemory G * Stdout :=
  match calls with
  | [] => (self, out)
  | c :: rest =>
      let '(self', out') :=
        add_interaction self (i_query c) (i_response c) (i_metadata c) out in
      add_interactions self' rest out'
  end.

(** ** Loading the generator *)

(** The part of a Hugging Face tokenizer that the module reads or writes. *)
Record Tokenizer : Type := mkTokenizer {
  name_or_path : string;
  pad_token : option string;
  eos_token : option string
}.

(** Truth value of an optional string: [None] and the empty string are
    falsy. *)
Definition truthy (o : option string) : bool :=
  match o with
  | Some (String _ _) => true
  | _ => false
  end.

(** A reference to a module-level template object.  The agent is handed
    the object [AGENT_ROLES] itself, not a copy. *)
Inductive TemplateRef : Type :=
| Ref_AGENT_ROLES.

(** The collaborators the module imports and calls: the YAML loader, the
    import machinery, the tokenizer loader, the stopping criterion, the
    generator class, the tool factory table, the constructor of the base
    tools manager and the constructor of the agent.  Each may raise. *)
Record Env : Type := mkEnv {
  Args : Type;
  Obj : Type;
  Generator : Type;
  Criteria : Type;
  load_config : Args -> Outcome PyVal;
  import_module : string -> Outcome Obj;
  getattr_obj : Obj -> string -> Outcome Obj;
  from_pretrained : PyVal -> Outcome Tokenizer;
  StopWordsByTextCriteria :
    Tokenizer -> list string -> string -> Outcome Criteria;
  construct : Obj -> PyDict PyVal -> Outcome Generator;
  warm_up : Generator -> Outcome Generator;
  TOOLS_FACTORY : PyDict (PyDict PyVal -> Outcome Tool);
  ToolsManager_init : list Tool -> Outcome (gmap string Tool);
  AgentT : Type;
  Agent :
    Generator -> TemplateRef -> EnhancedConversationMemory Generator ->
    EnhancedToolsManager -> Outcome AgentT
}.

(** [s.split(sep)] for a one-character separator. *)
Fixpoint split_on (sep : ascii) (s : string) : list string :=
  match s with
  | EmptyString => [EmptyString]
  | String c rest =>
      if Ascii.eqb c sep then EmptyString :: split_on sep rest
      else match split_on sep rest with
           | [] => [String c EmptyString]
           | w :: ws => String c w :: ws
           end
  end.

(** [class_path.split(".")]: only a string has the method. *)
Definition split_class_path (class_path : PyVal) : Outcome (list string) :=
  match class_path with
  | PStr s => Returned (split_on "." s)
  | _ => Raised AttributeError
  end.

(** [for part in class_path_parts[1:]: current_module = getattr(...)] *)
Fixpoint getattr_chain (env : Env) (current_module : Obj env)
    (parts : list string) : Outcome (Obj env) :=
  match parts with
  | [] => Returned current_module
  | part :: rest =>
      let* m := getattr_obj env current_module part in
      getattr_chain env m rest
  end.

Definition resolve_class (env : Env) (class_path_parts : list string)
  : Outcome (Obj env) :=
  match class_path_parts with
  | [] => Raised IndexError
  | first :: rest =>
      let* current_module := import_module env first in
      getattr_chain env current_module rest
  end.

(** [if not tokenizer.pad_token: tokenizer.pad_token = tokenizer.eos_token] *)
Definition ensure_pad_token (tokenizer : Tokenizer) : Tokenizer :=
  if truthy (pad_token tokenizer) then tokenizer
  else {| name_or_path := name_or_path tokenizer;
          pad_token := eos_token tokenizer;
          eos_token := eos_token tokenizer |}.

Definition stop_word_list : list string :=
  ["Observation:"; "<|eot_id|>"; "<|end|>"].

(** A call that unpacks its keyword arguments from a value: the value must
    be a mapping. *)
Definition call_with_kwargs {A : Type} (f : PyDict PyVal -> Outcome A)
    (kwargs : PyVal) : Outcome A :=
  match kwargs with
  | PDict d => f d
  | _ => Raised TypeError
  end.

(** [get_generator(chat_model_config)].  The second component is the
    standard output after the call. *)
Definition get_generator (env : Env) (chat_model_config : PyVal)
    (out : Stdout) : Outcome (Generator env * Tokenizer) * Stdout :=
  match
    (let* class_path := subscript chat_model_config "generator_class" in
     let* class_path_parts := split_class_path class_path in
     let* generator_class := resolve_class env class_path_parts in
     let* generator_kwargs := subscript chat_model_config "generator_kwargs" in
     let* model := subscript generator_kwargs "model" in
     let* tokenizer0 := from_pretrained env model in
     let tokenizer := ensure_pad_token tokenizer0 in
     let* sw := StopWordsByTextCriteria env tokenizer stop_word_list "cpu" in
     let stopping_criteria_list := [sw] in
     Returned (generator_class, tokenizer))
  with
  | Raised e => (Raised e, out)
  | Returned (generator_class, tokenizer) =>
      let out' :=
        if DEBUG_MODE then out ++ [PrintFmt "Model config: " chat_model_config]
        else out in
      (let* generator_kwargs := subscript chat_model_config "generator_kwargs" in
       let* generator0 :=
         call_with_kwargs (construct env generator_class) generator_kwargs in
       let* generator := warm_up env generator0 in
       Returned (generator, tokenizer),
       out')
  end.

(** ** Registering the configured tools *)

(** The hashable values: what can be a key of [tools_objects_map]. *)
Inductive PyKey : Type :=
| KNone
| KInt (z : Z)
| KStr (s : string).

#[global] Instance PyKey_eq_dec : EqDecision PyKey.
Proof. solve_decision. Defined.

Definition hash_key (v : PyVal) : Outcome PyKey :=
  match v with
  | PNone => Returned KNone
  | PInt z => Returned (KInt z)
  | PStr s => Returned (KStr s)
  | PList _ | PDict _ | PRef _ => Raised TypeError
  end.

(** [TOOLS_FACTORY[tool_type]]: the table has string keys. *)
Definition factory_lookup (env : Env) (tool_type : PyVal)
  : Outcome (PyDict PyVal -> Outcome Tool) :=
  match tool_type with
  | PStr s => getitem (TOOLS_FACTORY env) s
  | PNone | PInt _ => Raised (KeyError tool_type)
  | PList _ | PDict _ | PRef _ => Raised TypeError
  end.

Definition chars (s : string) : list string :=
  map (fun c => String c EmptyString) (list_ascii_of_string s).

(** What a [for] loop over a configuration value visits. *)
Definition iterate (v : PyVal) : Outcome (list PyVal) :=
  match v with
  | PList l => Returned l
  | PDict d => Returned (map PStr (dict_keys d))
  | PStr s => Returned (map PStr (chars s))
  | PNone | PInt _ | PRef _ => Raised TypeError
  end.

(** The body of the loop over [conversation_config["tools"]], run over the
    remaining tool configurations. *)
Fixpoint register_tools (env : Env) (tool_configs : list PyVal)
    (tools_objects_map : list (PyKey * Tool))
  : Outcome (list (PyKey * Tool)) :=
  match tool_configs with
  | [] => Returned tools_objects_map
  | tool_config :: rest =>
      let* tool_type := subscript tool_config "type" in
      let* tool_type_class := factory_lookup env tool_type in
      let* params := subscript tool_config "params" in
      let* tool_obj := call_with_kwargs tool_type_class params in
      let* params' := subscript tool_config "params" in
      let* tool_name := subscript params' "name" in
      let* key := hash_key tool_name in
      register_tools env rest (dict_set tools_objects_map key tool_obj)
  end.

(** [get_basic_conversation_pipeline(args)] *)
Definition get_basic_conversation_pipeline (env : Env) (args : Args env)
    (out : Stdout)
  : Outcome (Generator env * Tokenizer * list (PyKey * Tool)) * Stdout :=
  match load_config env args with
  | Raised e => (Raised e, out)
  | Returned conversation_config =>
      let out1 :=
        if DEBUG_MODE then
          out ++ [PrintFmt "Loaded config: " conversation_config]
        else out in
      match subscript conversation_config "chat_model" with
      | Raised e => (Raised e, out1)
      | Returned chat_model_config =>
          match get_generator env chat_model_config out1 with
          | (Raised e, out2) => (Raised e, out2)
          | (Returned (generator, tokenizer), out2) =>
              (let* tools_objects_map :=
                 match conversation_config with
                 | PDict d =>
                     if dict_contains d "tools" then
                       let* tools_value := getitem d "tools" in
                       let* tool_configs := iterate tools_value in
                       register_tools env tool_configs []
                     else Returned []
                 | _ => Raised TypeError
                 end in
               Returned (generator, tokenizer, tools_objects_map),
               out2)
          end
      end
  end.

(** ** The prompt templates *)

(** The double quote character, spliced into the template text. *)
Definition dq : string := String (ascii_of_nat 34) EmptyString.

(** The content of the system role at import time. *)
Definition system_content : string :=
  "You are designed to help with a variety of tasks, from answering questions to providing summaries to other types of analyses.

{custom_system_instructions}

## Tools

You have access to a wide variety of tools. You are responsible for using the tools in any sequence you deem appropriate to complete the task at hand.
This may require breaking the task into subtasks and using different tools to complete each subtask.

Previous conversation context:
{conversation_history}

You have access to the following tools:
{tool_names_with_descriptions}

## Output Format

If you lack information to answer, you MUST use a tool that can help you to get more information to answer the question, and use MUST use the following format:

```
Thought: I should use a tool to help me answer the question.
Tool: [tool name if using a tool].
Tool Input: [the input to the tool, in a JSON format representing the kwargs (e.g. {{" +:+ dq +:+
  "input" +:+ dq +:+
  ": " +:+ dq +:+
  "hello world" +:+ dq +:+
  "}})].
Observation: [tool response]
```

If you have enough information to answer the question without using any more tools, you MUST finish with " +:+ dq +:+
  "Final Answer:" +:+ dq +:+
  " and respond in the following format:

```
Thought: I can answer without using any more tools.
Final Answer: [your answer here]
```
".

(** The content of the user role at import time. *)
Definition chat_content : string :=
  "{query}
Context: {context}
Previous tools used: {tool_history}
Thought: ".

(** The module-level template objects.  [AGENT_ROLES] holds the two lists
    by reference, so it is a view of them. *)
Record Globals : Type := mkGlobals {
  AGENT_SYSTEM_ROLES : list (PyDict string);
  AGENT_CONVERSATION_BASE_ROLES : list (PyDict string)
}.

Definition AGENT_ROLES (g : Globals) : PyDict (list (PyDict string)) :=
  [ ("system", AGENT_SYSTEM_ROLES g);
    ("chat", AGENT_CONVERSATION_BASE_ROLES g) ].

Definition deref (g : Globals) (r : TemplateRef)
  : PyDict (list (PyDict string)) :=
  match r with
  | Ref_AGENT_ROLES => AGENT_ROLES g
  end.

(** The globals as the module body leaves them. *)
Definition initial_globals : Globals :=
  {| AGENT_SYSTEM_ROLES :=
       [ [("role", "system"); ("content", system_content)] ];
     AGENT_CONVERSATION_BASE_ROLES :=
       [ [("role", "user"); ("content", chat_content)] ] |}.

(** ** [str.format] with keyword arguments only *)

(** Where the scanner of the format string is: in literal text, in the
    name of a replacement field, inside the brackets of a field name, just
    after [!], after the conversion character, or in the format
    specification (with the count of open braces). *)
Inductive FormatMode : Type :=
| InText
| InFieldName (field_name : string)
| InBracket (field_name : string)
| InConversion (field_name : string)
| AfterConversion (field_name : string) (conversion : ascii)
| InFormatSpec (field_name : string) (conversion : option ascii)
    (format_spec : string) (count : nat).

Definition snoc (s : string) (c : ascii) : string :=
  s +:+ String c EmptyString.

Definition is_digit (c : ascii) : bool :=
  (48 <=? nat_of_ascii c)%nat && (nat_of_ascii c <=? 57)%nat.

Definition is_ascii (c : ascii) : bool := (nat_of_ascii c <? 128)%nat.

(** The part of a field name before the first [.] or [[]], and the rest. *)
Fixpoint split_first (field_name : string) : string * string :=
  match field_name with
  | EmptyString => (EmptyString, EmptyString)
  | String c rest =>
      if Ascii.eqb c "." || Ascii.eqb c "[" then (EmptyString, field_name)
      else let '(first, tail) := split_first rest in (String c first, tail)
  end.

Fixpoint leading_digits (s : string) : nat :=
  match s with
  | String c rest => if is_digit c then S (leading_digits rest) else 0
  | EmptyString => 0
  end.

(** How the first part of a field name selects its argument: an empty or
    numeric part indexes the positional arguments, anything else is a
    keyword.  The cases this embedding leaves open are a part with a
    non-ASCII character and a run of more than 18 digits. *)
Inductive FirstPart : Type :=
| Positional
| Keyword
| OpenCase.

Definition classify_first (first : string) : FirstPart :=
  if negb (forallb is_ascii (list_ascii_of_string first)) then OpenCase
  else if (18 <? leading_digits first)%nat then OpenCase
  else if (leading_digits first =? String.length first)%nat then Positional
  else Keyword.

(** The text a replacement field produces.  There are no positional
    arguments, so a positional field raises [IndexError]; a keyword that
    was not supplied raises [KeyError].  A supplied string is written as it
    is when the field is just its name; attribute or index access, a
    conversion and a format specification on it are left [Unmodelled]. *)
Definition render_field (field_name : string) (conversion : option ascii)
    (format_spec : string) (kwargs : PyDict string) : Outcome string :=
  let '(first, rest) := split_first field_name in
  match classify_first first with
  | OpenCase => Raised Unmodelled
  | Positional => Raised IndexError
  | Keyword =>
      match dict_get kwargs first with
      | None => Raised (KeyError (PStr first))
      | Some v =>
          match rest, conversion, format_spec with
          | EmptyString, None, EmptyString => Returned v
          | _, _, _ => Raised Unmodelled
          end
      end
  end.

Definition prepend (prefix : string) (m : Outcome string) : Outcome string :=
  let* r := m in Returned (prefix +:+ r).

(** The scanner: doubled braces are literal braces, a single closing brace
    is an error, a field is rendered as soon as its closing brace is read,
    so the first error from the left is the one raised. *)
Fixpoint format_from (mode : FormatMode) (s : string) (kwargs : PyDict string)
  : Outcome string :=
  match s with
  | EmptyString =>
      match mode with
      | InText => Returned EmptyString
      | _ => Raised ValueError
      end
  | String c rest =>
      match mode with
      | InText =>
          if Ascii.eqb c "{" then
            match rest with
            | EmptyString => Raised ValueError
            | String c2 rest2 =>
                if Ascii.eqb c2 "{" then
                  prepend "{" (format_from InText rest2 kwargs)
                else format_from (InFieldName EmptyString) rest kwargs
            end
          else if Ascii.eqb c "}" then
            match rest with
            | EmptyString => Raised ValueError
            | String c2 rest2 =>
                if Ascii.eqb c2 "}" then
                  prepend "}" (format_from InText rest2 kwargs)
                else Raised ValueError
            end
          else prepend (String c EmptyString) (format_from InText rest kwargs)
      | InFieldName field_name =>
          if Ascii.eqb c "{" then Raised ValueError
          else if Ascii.eqb c "[" then
            format_from (InBracket (snoc field_name c)) rest kwargs
          else if Ascii.eqb c "}" then
            let* v := render_field field_name None EmptyString kwargs in
            prepend v (format_from InText rest kwargs)
          else if Ascii.eqb c ":" then
            format_from (InFormatSpec field_name None EmptyString 1) rest kwargs
          else if Ascii.eqb c "!" then
            format_from (InConversion field_name) rest kwargs
          else format_from (InFieldName (snoc field_name c)) rest kwargs
      | InBracket field_name =>
          if Ascii.eqb c "]" then
            format_from (InFieldName (snoc field_name c)) rest kwargs
          else format_from (InBracket (snoc field_name c)) rest kwargs
      | InConversion field_name =>
          format_from (AfterConversion field_name c) rest kwargs
      | AfterConversion field_name conversion =>
          if Ascii.eqb c "}" then
            let* v :=
              render_field field_name (Some conversion) EmptyString kwargs in
            prepend v (format_from InText rest kwargs)
          else if Ascii.eqb c ":" then
            format_from
              (InFormatSpec field_name (Some conversion) EmptyString 1)
              rest kwargs
          else Raised ValueError
      | InFormatSpec field_name conversion format_spec count =>
          if Ascii.eqb c "{" then
            format_from
              (InFormatSpec field_name conversion (snoc format_spec c)
                 (S count)) rest kwargs
          else if Ascii.eqb c "}" then
            match count with
            | 0 | 1 =>
                let* v :=
                  render_field field_name conversion format_spec kwargs in
                prepend v (format_from InText rest kwargs)
            | S count' =>
                format_from
                  (InFormatSpec field_name conversion (snoc format_spec c)
                     count') rest kwargs
            end
          else
            format_from
              (InFormatSpec field_name conversion (snoc format_spec c) count)
              rest kwargs
      end
  end.

(** [template.format] called with keyword arguments only. *)
Definition str_format (template : string) (kwargs : PyDict string)
  : Outcome string :=
  format_from InText template kwargs.

(** ** Building the agent *)

(** [l[0]] on a list. *)
Definition first_item {A : Type} (l : list A) : Outcome A :=
  match l with
  | x :: _ => Returned x
  | [] => Raised IndexError
  end.

(** The keyword arguments of the [format] call: the custom instructions
    are substituted, the two other placeholders are put back. *)
Definition format_kwargs (custom_instructions : string) : PyDict string :=
  [ ("custom_system_instructions", custom_instructions);
    ("conversation_history", "{conversation_history}");
    ("tool_names_with_descriptions", "{tool_names_with_descriptions}") ].

(** [AGENT_SYSTEM_ROLES[0]["content"] =
       AGENT_SYSTEM_ROLES[0]["content"].format(...)]:
    the right-hand side is evaluated first, then the dict of the first
    role is updated in place. *)
Definition substitute_custom_instructions (g : Globals)
    (custom_instructions : string) : Outcome Globals :=
  let* role := first_item (AGENT_SYSTEM_ROLES g) in
  let* content := getitem role "content" in
  let* content' := str_format content (format_kwargs custom_instructions) in
  Returned
    {| AGENT_SYSTEM_ROLES :=
         <[0 := dict_set role "content" content']> (AGENT_SYSTEM_ROLES g);
       AGENT_CONVERSATION_BASE_ROLES := AGENT_CONVERSATION_BASE_ROLES g |}.

(** The content of the system role once the custom instructions have been
    substituted: the text of the instructions stands where the first
    placeholder was, the two other placeholders are still there and the
    doubled braces of the example are single. *)
Definition customised_system_content (custom_instructions : string) : string :=
  "You are designed to help with a variety of tasks, from answering questions to providing summaries to other types of analyses.

" +:+
  custom_instructions +:+
  "

## Tools

You have access to a wide variety of tools. You are responsible for using the tools in any sequence you deem appropriate to complete the task at hand.
This may require breaking the task into subtasks and using different tools to complete each subtask.

Previous conversation context:
{conversation_history}

You have access to the following tools:
{tool_names_with_descriptions}

## Output Format

If you lack information to answer, you MUST use a tool that can help you to get more information to answer the question, and use MUST use the following format:

```
Thought: I should use a tool to help me answer the question.
Tool: [tool name if using a tool].
Tool Input: [the input to the tool, in a JSON format representing the kwargs (e.g. {" +:+ dq +:+
  "input" +:+ dq +:+
  ": " +:+ dq +:+
  "hello world" +:+ dq +:+
  "})].
Observation: [tool response]
```

If you have enough information to answer the question without using any more tools, you MUST finish with " +:+ dq +:+
  "Final Answer:" +:+ dq +:+
  " and respond in the following format:

```
Thought: I can answer without using any more tools.
Final Answer: [your answer here]
```
".

(** Everything the construction of an agent can change: the template
    globals, the heap and the standard output. *)
Record World : Type := mkWorld {
  globals : Globals;
  heap : Heap;
  stdout : Stdout
}.

(** [get_agent_conversation_pipeline(args, custom_instructions=None)] *)
Definition get_agent_conversation_pipeline (env : Env) (args : Args env)
    (custom_instructions : option string) (w : World)
  : Outcome (AgentT env) * World :=
  match get_basic_conversation_pipeline env args (stdout w) with
  | (Raised e, out) =>
      (Raised e, {| globals := globals w; heap := heap w; stdout := out |})
  | (Returned (generator, tokenizer, tools_objects_map), out) =>
      match
        (match custom_instructions with
         | Some text =>
             if truthy custom_instructions then
               substitute_custom_instructions (globals w) text
             else Returned (globals w)
         | None => Returned (globals w)
         end)
      with
      | Raised e =>
          (Raised e, {| globals := globals w; heap := heap w; stdout := out |})
      | Returned g =>
          match
            EnhancedToolsManager_init (ToolsManager_init env)
              (dict_values tools_objects_map) DEBUG_MODE
          with
          | Raised e =>
              (Raised e, {| globals := g; heap := heap w; stdout := out |})
          | Returned tools_manager =>
              let '(memory, h) :=
                EnhancedConversationMemory_init generator (heap w) in
              (Agent env generator Ref_AGENT_ROLES memory tools_manager,
               {| globals := g; heap := h; stdout := out |})
          end
      end
  end.

(** The template globals after a call, whatever its outcome. *)
Definition globals_after (env : Env) (args : Args env)
    (custom_instructions : option string) (w : World) : Globals :=
  globals (snd (get_agent_conversation_pipeline env args custom_instructions w)).

(** ** A small concrete installation

    Two tools, a configuration document and stand-ins for the imported
    collaborators, on which the definitions above can be evaluated. *)
Module Sample.

Definition calculator : Tool :=
  {| name := "calculator";
     description := "Evaluates an arithmetic expression.";
     invoke := fun _ => Returned (PStr "4") |}.

Definition boom : Exn := OtherException "RuntimeError" "index unavailable".

Definition search : Tool :=
  {| name := "search";
     description := "Searches the document index.";
     invoke := fun _ => Raised boom |}.

Definition registry : gmap string Tool :=
  <["search" := search]> (<["calculator" := calculator]> ∅).

Definition manager (debug : bool) : EnhancedToolsManager :=
  {| tools := registry; debug_mode := debug; tool_execution_history := [] |}.

Definition kwargs : PyDict PyVal := [("expr", PStr "2+2")].

Definition memory : EnhancedConversationMemory unit :=
  fst (EnhancedConversationMemory_init tt []).

Definition tokenizer : Tokenizer :=
  {| name_or_path := "llama"; pad_token := None; eos_token := Some "</s>" |}.

Definition chat_model : PyDict PyVal :=
  [ ("generator_class", PStr "fastrag.generators.Llama");
    ("generator_kwargs", PDict [("model", PStr "llama")]) ].

Definition tool_config (type nm : string) : PyVal :=
  PDict [ ("type", PStr type); ("params", PDict [("name", PStr nm)]) ].

(** Two configured tools under one name. *)
Definition config : PyVal :=
  PDict [ ("chat_model", PDict chat_model);
          ("tools", PList [ tool_config "doc" "lookup";
                            tool_config "image" "lookup" ]) ].

Definition make_tool (kind : string) (params : PyDict PyVal) : Outcome Tool :=
  match dict_get params "name" with
  | Some (PStr nm) =>
      Returned {| name := nm; description := kind;
                  invoke := fun _ => Returned (PStr kind) |}
  | _ => Raised TypeError
  end.

Definition env : Env :=
  {| Args := unit;
     Obj := list string;
     Generator := PyDict PyVal * bool;
     Criteria := list string;
     load_config := fun _ => Returned config;
     import_module := fun m => Returned [m];
     getattr_obj := fun o part => Returned (o ++ [part]);
     from_pretrained := fun _ => Returned tokenizer;
     StopWordsByTextCriteria := fun _ stop_words _ => Returned stop_words;
     construct := fun _ generator_kwargs => Returned (generator_kwargs, false);
     warm_up := fun g => Returned (fst g, true);
     TOOLS_FACTORY := [("doc", make_tool "doc"); ("image", make_tool "image")];
     ToolsManager_init :=
       fun ts => Returned (list_to_map (map (fun t => (name t, t)) ts));
     AgentT := TemplateRef * EnhancedToolsManager;
     Agent := fun _ r _ tm => Returned (r, tm) |}.

Definition world : World :=
  {| globals := initial_globals; heap := []; stdout := [] |}.

End Sample.

(** ** Sessions and loop bodies

    Drivers that run the methods above several times in a row, and the
    body of the registration loop on its own. *)

(** One call of [execute_tool], as data. *)
Record Dispatch : Type := mkDispatch {
  d_tool : string;
  d_kwargs : PyDict PyVal
}.

(** A run of dispatches on one manager, the caller catching what each of
    them raises: the outcomes in order, the manager and the standard
    output at the end. *)
Fixpoint execute_tools (console : Console) (self : EnhancedToolsManager)
    (calls : list Dispatch) (out : Stdout)
  : list (Outcome PyVal) * EnhancedToolsManager * Stdout :=
  match calls with
  | [] => ([], self, out)
  | c :: rest =>
      let '(res, self', out') :=
        execute_tool console self (d_tool c) (d_kwargs c) out in
      let '(ress, self'', out'') := execute_tools console self' rest out' in
      (res :: ress, self'', out'')
  end.

(** What one dispatch leaves in the history of a manager with the given
    registry. *)
Definition recorded (registry : gmap string Tool) (c : Dispatch)
  : list (PyDict PyVal) :=
  match ToolsManager_execute_tool registry (d_tool c) (d_kwargs c) with
  | Returned result => [success_record (d_tool c) (d_kwargs c) result]
  | Raised _ => []
  end.

(** How the outcome of a dispatch follows that of the base dispatch: a
    returned value is handed on, and a raised exception ends in a raised
    exception. *)
Definition follows (base outcome : Outcome PyVal) : Prop :=
  match base with
  | Returned v => outcome = Returned v
  | Raised _ => exists e, outcome = Raised e
  end.


(** The body of the registration loop for one tool configuration: the key
    and the tool that the assignment to [tools_objects_map] stores. *)
Definition tool_entry (env : Env) (tool_config : PyVal)
  : Outcome (PyKey * Tool) :=
  let* tool_type := subscript tool_config "type" in
  let* tool_type_class := factory_lookup env tool_type in
  let* params := subscript tool_config "params" in
  let* tool_obj := call_with_kwargs tool_type_class params in
  let* params' := subscript tool_config "params" in
  let* tool_name := subscript params' "name" in
  let* key := hash_key tool_name in
  Returned (key, tool_obj).

(** [for x in xs: r = f(x)], stopping at the first exception. *)
Fixpoint for_each {A B : Type} (f : A -> Outcome B) (xs : list A)
  : Outcome (list B) :=
  match xs with
  | [] => Returned []
  | x :: rest =>
      let* y := f x in
      let* ys := for_each f rest in
      Returned (y :: ys)
  end.

(** The assignments [tools_objects_map[key] = tool_obj], in order. *)
Definition store_all (tools_objects_map : list (PyKey * Tool))
    (entries : list (PyKey * Tool)) : list (PyKey * Tool) :=
  fold_left (fun m kt => dict_set m kt.1 kt.2) entries tools_objects_map.


(** A text without braces. *)
Fixpoint brace_free (s : string) : bool :=
  match s with
  | EmptyString => true
  | String c rest =>
      negb (Ascii.eqb c "{") && negb (Ascii.eqb c "}") && brace_free rest
  end.

(** ** Variants of the installation *)

(** The same collaborators with another configuration document. *)
Definition with_config (env : Env) (config : PyVal) : Env :=
  {| Args := Args env;
     Obj := Obj env;
     Generator := Generator env;
     Criteria := Criteria env;
     load_config := fun _ => Returned config;
     import_module := import_module env;
     getattr_obj := getattr_obj env;
     from_pretrained := from_pretrained env;
     StopWordsByTextCriteria := StopWordsByTextCriteria env;
     construct := construct env;
     warm_up := warm_up env;
     TOOLS_FACTORY := TOOLS_FACTORY env;
     ToolsManager_init := ToolsManager_init env;
     AgentT := AgentT env;
     Agent := Agent env |}.

(** The same collaborators with a base tools manager whose constructor
    raises. *)
Definition with_failing_manager (env : Env) (e : Exn) : Env :=
  {| Args := Args env;
     Obj := Obj env;
     Generator := Generator env;
     Criteria := Criteria env;
     load_config := load_config env;
     import_module := import_module env;
     getattr_obj := getattr_obj env;
     from_pretrained := from_pretrained env;
     StopWordsByTextCriteria := StopWordsByTextCriteria env;
     construct := construct env;
     warm_up := warm_up env;
     TOOLS_FACTORY := TOOLS_FACTORY env;
     ToolsManager_init := fun _ => Raised e;
     AgentT := AgentT env;
     Agent := Agent env |}.

(** A configuration whose [tools] key has no value. *)
Definition config_with_null_tools : PyVal :=
  PDict [ ("chat_model", PDict Sample.chat_model); ("tools", PNone) ].

(** ** A stream that refuses a text *)

(** The text made of one lone surrogate (U+D83D), a character that UTF-8
    cannot encode, written as its three bytes. *)
Definition lone_surrogate : string :=
  String (ascii_of_nat 237)
    (String (ascii_of_nat 160) (String (ascii_of_nat 189) EmptyString)).

(** What a tool raises on it. *)
Definition surrogate_error : Exn := OtherException "ValueError" lone_surrogate.

(** What [print] raises when the text has the lone surrogate at position
    22, just after the prefix of the error line. *)
Definition encode_error : Exn :=
  OtherException "UnicodeEncodeError"
    "'utf-8' codec can't encode character '\ud83d' in position 22: surrogates not allowed".

(** A tool whose capability raises the error. *)
Definition decoder : Tool :=
  {| name := "decoder";
     description := "Decodes a text.";
     invoke := fun _ => Raised surrogate_error |}.

Definition decoder_manager (debug : bool) : EnhancedToolsManager :=
  {| tools := <["decoder" := decoder]> ∅; debug_mode := debug;
     tool_execution_history := [] |}.

(** The standard output as a UTF-8 stream, as far as this error goes: the
    error line of [surrogate_error] cannot be encoded, every other line is
    printed. *)
Definition utf8_console : Console :=
  fun line =>
    match line with
    | PrintExn _ (OtherException _ text) =>
        if String.eqb text lone_surrogate then Some encode_error else None
    | _ => None
    end.

(** The names that a run of assignments adds to a dict, in the order in
    which they first appear: a name that is already there, or was added
    earlier in the run, is skipped. *)
Fixpoint first_appearances {K : Type} `{EqDecision K} (seen keys : list K)
  : list K :=
  match keys with
  | [] => []
  | k :: rest =>
      if decide (k ∈ seen) then first_appearances seen rest
      else k :: first_appearances (seen ++ [k]) rest
  end.

(** * Properties *)

(** ** Dictionaries *)

Lemma dict_get_set_eq {K V : Type} `{EqDecision K} (d : list (K * V)) k v :
  dict_get (dict_set d k v) k = Some v.
Proof.
  induction d as [|[k' v'] d IH]; simpl.
  - rewrite decide_True; [reflexivity | done].
  - destruct (decide (k' = k)) as [->|Hne]; simpl.
    + rewrite decide_True; [reflexivity | done].
    + rewrite decide_False; [exact IH | done].
Qed.

Lemma dict_get_set_ne {K V : Type} `{EqDecision K} (d : list (K * V)) k k' v :
  k ≠ k' -> dict_get (dict_set d k v) k' = dict_get d k'.
Proof.
  intros Hne. induction d as [|[k0 v0] d IH]; simpl.
  - rewrite decide_False; [reflexivity | done].
  - destruct (decide (k0 = k)) as [->|Hne0]; simpl.
    + rewrite !decide_False; [reflexivity | done | done].
    + destruct (decide (k0 = k')); [reflexivity | exact IH].
Qed.

Lemma dict_keys_set_present {K V : Type} `{EqDecision K} (d : list (K * V)) k v :
  is_Some (dict_get d k) -> dict_keys (dict_set d k v) = dict_keys d.
Proof.
  unfold dict_keys. induction d as [|[k' v'] d IH]; simpl.
  - intros [x Hx]. discriminate.
  - destruct (decide (k' = k)) as [->|Hne]; simpl; intros Hin.
    + reflexivity.
    + f_equal. exact (IH Hin).
Qed.

(** ** Dispatch through the tools manager *)

Lemma execute_tool_returned console self tool_name kwargs out t result :
  tools self !! tool_name = Some t ->
  invoke t kwargs = Returned result ->
  execute_tool console self tool_name kwargs out =
    (Returned result,
     {| tools := tools self; debug_mode := debug_mode self;
        tool_execution_history :=
          tool_execution_history self
            ++ [success_record tool_name kwargs result] |},
     out).
Proof.
  intros Hreg Hres. unfold execute_tool, ToolsManager_execute_tool.
  rewrite Hreg, Hres. reflexivity.
Qed.

(** When the base dispatch raises, the manager is left as it was and an
    exception reaches the caller: the one that was caught, unless one of
    the two prints of the handler raised. *)
Lemma execute_tool_raised_history console self tool_name kwargs out e :
  ToolsManager_execute_tool (tools self) tool_name kwargs = Raised e ->
  (exists e', (execute_tool console self tool_name kwargs out).1.1 = Raised e') /\
  (debug_mode self = false \/ is_Exception e = false \/
   prints_succeed console e kwargs ->
   (execute_tool console self tool_name kwargs out).1.1 = Raised e) /\
  (execute_tool console self tool_name kwargs out).1.2 = self.
Proof.
  intros Hraise. unfold execute_tool, print_line, prints_succeed.
  rewrite Hraise.
  destruct (is_Exception e); [| repeat split; eauto].
  destruct (debug_mode self); [| repeat split; eauto].
  destruct (console (error_line e)) as [e1|] eqn:H1.
  - repeat split; eauto. intros [H | [H | [H _]]]; discriminate.
  - destruct (console (inputs_line kwargs)) as [e2|] eqn:H2.
    + repeat split; eauto. intros [H | [H | [_ H]]]; discriminate.
    + repeat split; eauto.
Qed.




(** C4, as the code has it: when the capability of a registered tool
    returns, exactly one record is appended to the history; it holds the
    tool name, the inputs, the returned result and status success under
    the four keys tool, inputs, result and status, and nothing else; the
    result is returned to the caller. *)
Theorem execute_tool_success_appends_record
    console self tool_name kwargs out t result :
  tools self !! tool_name = Some t ->
  invoke t kwargs = Returned result ->
  (execute_tool console self tool_name kwargs out).1.1 = Returned result /\
  exists r : PyDict PyVal,
    tool_execution_history (execute_tool console self tool_name kwargs out).1.2
      = tool_execution_history self ++ [r] /\
    dict_get r "tool" = Some (PStr tool_name) /\
    dict_get r "inputs" = Some (PDict kwargs) /\
    dict_get r "result" = Some result /\
    dict_get r "status" = Some (PStr "success") /\
    dict_keys r = ["tool"; "inputs"; "result"; "status"].
Proof.
  intros Hreg Hres.
  rewrite (execute_tool_returned console self tool_name kwargs out t result
             Hreg Hres).
  split; [reflexivity |].
  exists (success_record tool_name kwargs result).
  repeat split; reflexivity.
Qed.

Lemma execute_tool_success_appends_record_witness :
  (execute_tool reliable (Sample.manager false) "calculator" Sample.kwargs
     []).1.1
    = Returned (PStr "4") /\
  exists r : PyDict PyVal,
    tool_execution_history
      (execute_tool reliable (Sample.manager false) "calculator"
         Sample.kwargs []).1.2
      = [] ++ [r] /\
    dict_get r "tool" = Some (PStr "calculator") /\
    dict_get r "inputs" = Some (PDict Sample.kwargs) /\
    dict_get r "result" = Some (PStr "4") /\
    dict_get r "status" = Some (PStr "success") /\
    dict_keys r = ["tool"; "inputs"; "result"; "status"].
Proof.
  apply (execute_tool_success_appends_record reliable
           (Sample.manager false) "calculator" Sample.kwargs []
           Sample.calculator (PStr "4")); reflexivity.
Defined.

(** C4 as stated fails: the record appended for the successful dispatch of
    [calculator] has no timestamp. *)
Lemma success_record_timestamp_counterexample :
  Sample.registry !! "calculator" = Some Sample.calculator /\
  invoke Sample.calculator Sample.kwargs = Returned (PStr "4") /\
  ~ (exists r : PyDict PyVal,
       tool_execution_history
         (execute_tool reliable (Sample.manager false) "calculator"
            Sample.kwargs []).1.2
       = tool_execution_history (Sample.manager false) ++ [r] /\
       dict_contains r "timestamp" = true).
Proof.
  split; [reflexivity | split; [reflexivity |]].
  intros [r [Hhist Hts]]. vm_compute in Hhist.
  injection Hhist as <-. vm_compute in Hts. discriminate Hts.
Qed.

Lemma execute_tool_history_cases console self tool_name kwargs out :
  (exists t result,
      tools self !! tool_name = Some t /\
      invoke t kwargs = Returned result /\
      (execute_tool console self tool_name kwargs out).1.1 = Returned result /\
      tool_execution_history (execute_tool console self tool_name kwargs out).1.2
        = tool_execution_history self
            ++ [success_record tool_name kwargs result]) \/
  ((exists e e',
      ToolsManager_execute_tool (tools self) tool_name kwargs = Raised e /\
      (execute_tool console self tool_name kwargs out).1.1 = Raised e') /\
   (forall t result,
      tools self !! tool_name = Some t -> invoke t kwargs <> Returned result) /\
   tool_execution_history (execute_tool console self tool_name kwargs out).1.2
     = tool_execution_history self).
Proof.
  destruct (tools self !! tool_name) as [t|] eqn:Hreg.
  - destruct (invoke t kwargs) as [result|e] eqn:Hres.
    + left. exists t, result.
      rewrite (execute_tool_returned console self tool_name kwargs out t
                 result Hreg Hres).
      repeat split; assumption || reflexivity.
    + right.
      assert (Hbase :
        ToolsManager_execute_tool (tools self) tool_name kwargs = Raised e).
      { unfold ToolsManager_execute_tool. rewrite Hreg. exact Hres. }
      destruct (execute_tool_raised_history console self tool_name kwargs out
                  e Hbase) as ([e' Hout] & _ & Hself).
      rewrite Hself. split; [eauto | split; [| reflexivity]].
      intros t' r' [= <-]. congruence.
  - right.
    assert (Hbase :
      ToolsManager_execute_tool (tools self) tool_name kwargs
        = Raised (UnknownToolError tool_name)).
    { unfold ToolsManager_execute_tool. now rewrite Hreg. }
    destruct (execute_tool_raised_history console self tool_name kwargs out
                _ Hbase) as ([e' Hout] & _ & Hself).
    rewrite Hself. split; [eauto | split; [| reflexivity]].
    intros t r [=].
Qed.

(** C5, as the code has it: a record is appended exactly when the named
    tool is registered and its capability returned; in particular the
    dispatch of an unregistered name raises and appends nothing, and what
    it raises is [UnknownToolError] whenever the debug flag is off or the
    two debug prints of the handler succeed. *)
Theorem record_iff_registered_tool_returned console self tool_name kwargs out :
  ((exists r : PyDict PyVal,
      tool_execution_history
        (execute_tool console self tool_name kwargs out).1.2
        = tool_execution_history self ++ [r])
   <-> (exists t result,
          tools self !! tool_name = Some t /\
          invoke t kwargs = Returned result)) /\
  (tools self !! tool_name = None ->
   (exists e', (execute_tool console self tool_name kwargs out).1.1 = Raised e') /\
   (debug_mode self = false \/
    prints_succeed console (UnknownToolError tool_name) kwargs ->
    (execute_tool console self tool_name kwargs out).1.1
      = Raised (UnknownToolError tool_name)) /\
   tool_execution_history (execute_tool console self tool_name kwargs out).1.2
     = tool_execution_history self).
Proof.
  split.
  - destruct (execute_tool_history_cases console self tool_name kwargs out)
      as [(t & result & Hreg & Hres & _ & Hhist) | (_ & Hnone & Hhist)].
    + split; intros _; eauto.
    + split.
      * intros [r Hr]. rewrite Hhist in Hr.
        apply (f_equal length) in Hr. rewrite length_app in Hr.
        simpl in Hr. lia.
      * intros (t & result & Hreg & Hres). destruct (Hnone t result Hreg Hres).
  - intros Hnone.
    assert (Hbase :
      ToolsManager_execute_tool (tools self) tool_name kwargs
        = Raised (UnknownToolError tool_name)).
    { unfold ToolsManager_execute_tool. now rewrite Hnone. }
    destruct (execute_tool_raised_history console self tool_name kwargs out
                _ Hbase) as (Hexn & Hsame & Hself).
    split; [exact Hexn | split; [| now rewrite Hself]].
    intros [H | H]; apply Hsame; tauto.
Qed.

Lemma record_iff_registered_tool_returned_witness :
  (execute_tool reliable (Sample.manager true) "unknown_tool" [] []).1.1
    = Raised (UnknownToolError "unknown_tool") /\
  tool_execution_history
    (execute_tool reliable (Sample.manager true) "unknown_tool" [] []).1.2
    = [].
Proof.
  destruct (proj2 (record_iff_registered_tool_returned reliable
                     (Sample.manager true) "unknown_tool" [] []) eq_refl)
    as (_ & Hsame & Hhist).
  split; [| exact Hhist].
  apply Hsame. right. split; reflexivity.
Defined.

(** C5 as stated fails: the dispatcher attempts the invocation of the
    registered tool [search], which raises, and no record is created. *)
Lemma record_iff_attempt_counterexample :
  ~ ((exists r : PyDict PyVal,
        tool_execution_history
          (execute_tool reliable (Sample.manager true) "search"
             Sample.kwargs []).1.2
        = tool_execution_history (Sample.manager true) ++ [r])
     <-> (exists t, tools (Sample.manager true) !! "search" = Some t)).
Proof.
  intros [_ Hback].
  destruct Hback as [r Hr]; [exists Sample.search; reflexivity |].
  vm_compute in Hr. discriminate Hr.
Qed.

(** C8 fails on the code: the tool [decoder] raises a [ValueError] whose
    text is a lone surrogate.  With the debug flag off the caller gets
    this [ValueError]; with the flag on, the print of the error line on a
    UTF-8 stream raises [UnicodeEncodeError] inside the handler, before
    the bare [raise], and the caller gets that exception instead.  The
    execution history is the same, empty, in both runs. *)
Theorem debug_flag_changes_raised_exception :
  (execute_tool utf8_console (decoder_manager false) "decoder" [] []).1.1
    = Raised surrogate_error /\
  (execute_tool utf8_console (decoder_manager true) "decoder" [] []).1.1
    = Raised encode_error /\
  surrogate_error <> encode_error /\
  tool_execution_history
    (execute_tool utf8_console (decoder_manager false) "decoder" [] []).1.2
  = tool_execution_history
      (execute_tool utf8_console (decoder_manager true) "decoder" [] []).1.2.
Proof.
  repeat split; try reflexivity. discriminate.
Qed.

(** ** The conversation memory *)


Lemma add_interaction_system_configs {G : Type}
    (self : EnhancedConversationMemory G) query response metadata out :
  system_configs (add_interaction self query response metadata out).1
    = system_configs self.
Proof. reflexivity. Qed.



Lemma add_interactions_tool_history {G : Type}
    (calls : list Interaction) :
  forall (self : EnhancedConversationMemory G) (out : Stdout),
    tool_history (add_interactions self calls out).1
      = tool_history self
          ++ map (fun c => interaction_record self (i_query c) (i_response c)
                             (i_metadata c)) calls.
Proof.
  induction calls as [|c calls IH]; intros self out; simpl.
  - now rewrite app_nil_r.
  - rewrite IH. simpl. rewrite <- app_assoc. reflexivity.
Qed.


(** ** Loading the generator *)

Lemma get_generator_prefix env cfg out
    class_path generator_class generator_kwargs model tokenizer0 :
  subscript cfg "generator_class" = Returned (PStr class_path) ->
  resolve_class env (split_on "." class_path) = Returned generator_class ->
  subscript cfg "generator_kwargs" = Returned (PDict generator_kwargs) ->
  dict_get generator_kwargs "model" = Some model ->
  from_pretrained env model = Returned tokenizer0 ->
  get_generator env cfg out =
    match
      StopWordsByTextCriteria env (ensure_pad_token tokenizer0)
        stop_word_list "cpu"
    with
    | Raised e => (Raised e, out)
    | Returned _ =>
        (let* generator0 := construct env generator_class generator_kwargs in
         let* generator := warm_up env generator0 in
         Returned (generator, ensure_pad_token tokenizer0),
         out ++ [PrintFmt "Model config: " cfg])
    end.
Proof.
  intros Hclass Hresolve Hkwargs Hmodel Htok.
  unfold get_generator. rewrite Hclass. simpl. rewrite Hresolve. simpl.
  rewrite Hkwargs. simpl. unfold getitem. rewrite Hmodel. simpl.
  rewrite Htok. simpl.
  destruct (StopWordsByTextCriteria env _ _ _); reflexivity.
Qed.

(** C9: [get_generator] builds the stop-words criterion over the three
    markers (an error of that constructor is an error of [get_generator]),
    and when it has been built the value is dropped: the generator is
    constructed from [generator_kwargs] alone, warmed up, and the result is
    the pair of this generator and the tokenizer. *)
Theorem get_generator_drops_stopping_criteria env cfg out
    class_path generator_class generator_kwargs model tokenizer0 :
  subscript cfg "generator_class" = Returned (PStr class_path) ->
  resolve_class env (split_on "." class_path) = Returned generator_class ->
  subscript cfg "generator_kwargs" = Returned (PDict generator_kwargs) ->
  dict_get generator_kwargs "model" = Some model ->
  from_pretrained env model = Returned tokenizer0 ->
  match
    StopWordsByTextCriteria env (ensure_pad_token tokenizer0)
      ["Observation:"; "<|eot_id|>"; "<|end|>"] "cpu"
  with
  | Raised e => (get_generator env cfg out).1 = Raised e
  | Returned stopping_criterion =>
      (get_generator env cfg out).1 =
        (let* generator0 := construct env generator_class generator_kwargs in
         let* generator := warm_up env generator0 in
         Returned (generator, ensure_pad_token tokenizer0))
  end.
Proof.
  intros Hclass Hresolve Hkwargs Hmodel Htok.
  rewrite (get_generator_prefix env cfg out class_path generator_class
             generator_kwargs model tokenizer0) by assumption.
  unfold stop_word_list.
  destruct (StopWordsByTextCriteria env _ _ _); reflexivity.
Qed.

Lemma get_generator_drops_stopping_criteria_witness :
  (get_generator Sample.env (PDict Sample.chat_model) []).1 =
    Returned (([("model", PStr "llama")], true),
              {| name_or_path := "llama"; pad_token := Some "</s>";
                 eos_token := Some "</s>" |}).
Proof.
  apply (get_generator_drops_stopping_criteria Sample.env
           (PDict Sample.chat_model) [] "fastrag.generators.Llama"
           ["fastrag"; "generators"; "Llama"] [("model", PStr "llama")]
           (PStr "llama") Sample.tokenizer); reflexivity.
Defined.

(** C10: when [get_generator] returns, the tokenizer it returns is the
    loaded one, with its pad token set to its end-of-sequence token if it
    had no pad token ([None] or empty, the test the code makes) and
    unchanged if it had one. *)
Theorem get_generator_pad_token env cfg out
    class_path generator_class generator_kwargs model tokenizer0
    stopping_criterion generator0 generator :
  subscript cfg "generator_class" = Returned (PStr class_path) ->
  resolve_class env (split_on "." class_path) = Returned generator_class ->
  subscript cfg "generator_kwargs" = Returned (PDict generator_kwargs) ->
  dict_get generator_kwargs "model" = Some model ->
  from_pretrained env model = Returned tokenizer0 ->
  StopWordsByTextCriteria env (ensure_pad_token tokenizer0) stop_word_list "cpu"
    = Returned stopping_criterion ->
  construct env generator_class generator_kwargs = Returned generator0 ->
  warm_up env generator0 = Returned generator ->
  exists tokenizer,
    (get_generator env cfg out).1 = Returned (generator, tokenizer) /\
    (truthy (pad_token tokenizer0) = false ->
     pad_token tokenizer = eos_token tokenizer0 /\
     eos_token tokenizer = eos_token tokenizer0 /\
     name_or_path tokenizer = name_or_path tokenizer0) /\
    (truthy (pad_token tokenizer0) = true -> tokenizer = tokenizer0).
Proof.
  intros Hclass Hresolve Hkwargs Hmodel Htok Hsw Hgen Hwarm.
  exists (ensure_pad_token tokenizer0).
  rewrite (get_generator_prefix env cfg out class_path generator_class
             generator_kwargs model tokenizer0) by assumption.
  rewrite Hsw. simpl. rewrite Hgen. simpl. rewrite Hwarm. simpl.
  unfold ensure_pad_token.
  split; [reflexivity | split]; intros Hpad; rewrite Hpad.
  - repeat split; reflexivity.
  - reflexivity.
Qed.

Lemma get_generator_pad_token_witness :
  exists tokenizer,
    (get_generator Sample.env (PDict Sample.chat_model) []).1
      = Returned (([("model", PStr "llama")], true), tokenizer) /\
    (truthy (pad_token Sample.tokenizer) = false ->
     pad_token tokenizer = eos_token Sample.tokenizer /\
     eos_token tokenizer = eos_token Sample.tokenizer /\
     name_or_path tokenizer = name_or_path Sample.tokenizer) /\
    (truthy (pad_token Sample.tokenizer) = true -> tokenizer = Sample.tokenizer).
Proof.
  apply (get_generator_pad_token Sample.env (PDict Sample.chat_model) []
           "fastrag.generators.Llama" ["fastrag"; "generators"; "Llama"]
           [("model", PStr "llama")] (PStr "llama") Sample.tokenizer
           stop_word_list ([("model", PStr "llama")], false)
           ([("model", PStr "llama")], true)); reflexivity.
Defined.

(** ** Registering the configured tools *)

(** C6, as the code has it: registering a tool under a name that is
    already in [tools_objects_map] raises nothing and replaces the tool
    stored under that name; the names, their order and the tools under the
    other names stay as they were. *)
Theorem register_tools_replaces_duplicate env tool_config
    tool_type tool_type_class params tool_obj tool_name key
    (tools_objects_map : list (PyKey * Tool)) previous :
  subscript tool_config "type" = Returned tool_type ->
  factory_lookup env tool_type = Returned tool_type_class ->
  subscript tool_config "params" = Returned (PDict params) ->
  tool_type_class params = Returned tool_obj ->
  dict_get params "name" = Some tool_name ->
  hash_key tool_name = Returned key ->
  dict_get tools_objects_map key = Some previous ->
  exists updated,
    register_tools env [tool_config] tools_objects_map = Returned updated /\
    dict_get updated key = Some tool_obj /\
    dict_keys updated = dict_keys tools_objects_map /\
    (forall other, key <> other ->
       dict_get updated other = dict_get tools_objects_map other).
Proof.
  intros Htype Hclass Hparams Hobj Hname Hkey Hprev.
  exists (dict_set tools_objects_map key tool_obj).
  split; [| split; [| split]].
  - simpl. rewrite Htype. simpl. rewrite Hclass. simpl. rewrite Hparams.
    simpl. rewrite Hobj. simpl. unfold getitem. rewrite Hname. simpl.
    rewrite Hkey. reflexivity.
  - apply dict_get_set_eq.
  - apply dict_keys_set_present. rewrite Hprev. eauto.
  - intros other Hne. now apply dict_get_set_ne.
Qed.

Lemma register_tools_replaces_duplicate_witness :
  exists updated,
    register_tools Sample.env [Sample.tool_config "image" "lookup"]
      [(KStr "lookup",
        {| name := "lookup"; description := "doc";
           invoke := fun _ => Returned (PStr "doc") |})]
      = Returned updated /\
    dict_get updated (KStr "lookup")
      = Some {| name := "lookup"; description := "image";
                invoke := fun _ => Returned (PStr "image") |} /\
    dict_keys updated = [KStr "lookup"] /\
    (forall other, KStr "lookup" <> other ->
       dict_get updated other
         = dict_get
             [(KStr "lookup",
               {| name := "lookup"; description := "doc";
                  invoke := fun _ => Returned (PStr "doc") |})] other).
Proof.
  apply (register_tools_replaces_duplicate Sample.env
           (Sample.tool_config "image" "lookup") (PStr "image")
           (Sample.make_tool "image") [("name", PStr "lookup")]
           {| name := "lookup"; description := "image";
              invoke := fun _ => Returned (PStr "image") |}
           (PStr "lookup") (KStr "lookup")
           [(KStr "lookup",
             {| name := "lookup"; description := "doc";
                invoke := fun _ => Returned (PStr "doc") |})]
           {| name := "lookup"; description := "doc";
              invoke := fun _ => Returned (PStr "doc") |}); reflexivity.
Defined.

(** C6 as stated fails: the configuration names two tools [lookup]; the
    pipeline raises nothing and keeps the second tool only. *)
Lemma duplicate_name_counterexample :
  ~ (exists e,
       (get_basic_conversation_pipeline Sample.env tt []).1 = Raised e) /\
  (exists generator tokenizer replaced,
     (get_basic_conversation_pipeline Sample.env tt []).1
       = Returned (generator, tokenizer, [(KStr "lookup", replaced)]) /\
     description replaced = "image").
Proof.
  split.
  - intros [e He]. vm_compute in He. discriminate He.
  - eexists _, _, _. split; vm_compute; reflexivity.
Qed.

(** ** The prompt templates *)

Lemma substitute_initial_globals (text : string) :
  substitute_custom_instructions initial_globals text =
    Returned
      {| AGENT_SYSTEM_ROLES :=
           [ [("role", "system");
              ("content", customised_system_content text)] ];
         AGENT_CONVERSATION_BASE_ROLES :=
           AGENT_CONVERSATION_BASE_ROLES initial_globals |}.
Proof. vm_compute. reflexivity. Qed.

Lemma substitute_keeps_chat_roles g text g' :
  substitute_custom_instructions g text = Returned g' ->
  AGENT_CONVERSATION_BASE_ROLES g' = AGENT_CONVERSATION_BASE_ROLES g.
Proof.
  unfold substitute_custom_instructions. intros H.
  destruct (first_item (AGENT_SYSTEM_ROLES g)) as [role|]; [|discriminate].
  simpl in H. destruct (getitem role "content") as [content|]; [|discriminate].
  simpl in H. destruct (str_format content _) as [content'|]; [|discriminate].
  simpl in H. injection H as <-. reflexivity.
Qed.

(** The globals a call leaves behind: those of the substitution when the
    basic pipeline returned and the custom instructions are a non-empty
    string on which the substitution succeeds, the old ones otherwise. *)
Lemma globals_after_cases env args custom_instructions w :
  globals_after env args custom_instructions w = globals w \/
  exists basic out text g,
    get_basic_conversation_pipeline env args (stdout w) = (Returned basic, out) /\
    custom_instructions = Some text /\
    truthy custom_instructions = true /\
    substitute_custom_instructions (globals w) text = Returned g /\
    globals_after env args custom_instructions w = g.
Proof.
  unfold globals_after, get_agent_conversation_pipeline.
  destruct (get_basic_conversation_pipeline env args (stdout w))
    as [[[[generator tokenizer] tools_objects_map]|e] out] eqn:Hbasic;
    [| left; reflexivity].
  destruct custom_instructions as [text|].
  - destruct (truthy (Some text)) eqn:Htruthy.
    + destruct (substitute_custom_instructions (globals w) text) as [g|e]
        eqn:Hsub; [| left; reflexivity].
      right. exists (generator, tokenizer, tools_objects_map), out, text, g.
      repeat split; try reflexivity; try assumption.
      destruct (EnhancedToolsManager_init _ _ _); [| reflexivity].
      destruct (EnhancedConversationMemory_init _ _). reflexivity.
    + left. destruct (EnhancedToolsManager_init _ _ _); [| reflexivity].
      destruct (EnhancedConversationMemory_init _ _). reflexivity.
  - left. destruct (EnhancedToolsManager_init _ _ _); [| reflexivity].
    destruct (EnhancedConversationMemory_init _ _). reflexivity.
Qed.

(** C2, as the code has it: the construction of the agent pipeline never
    touches the user-role templates, and leaves the system-role templates
    as they are when no custom instructions are given ([None] or empty).
    With custom instructions it overwrites the content of the first
    system-role template in place with its formatted text: on the
    templates as the module defines them, the instructions stand in the
    place of their placeholder from then on. *)
Theorem pipeline_template_effect env args custom_instructions w :
  AGENT_CONVERSATION_BASE_ROLES (globals_after env args custom_instructions w)
    = AGENT_CONVERSATION_BASE_ROLES (globals w) /\
  (truthy custom_instructions = false ->
   globals_after env args custom_instructions w = globals w) /\
  (forall text basic out,
     custom_instructions = Some text ->
     truthy custom_instructions = true ->
     globals w = initial_globals ->
     get_basic_conversation_pipeline env args (stdout w)
       = (Returned basic, out) ->
     AGENT_SYSTEM_ROLES (globals_after env args custom_instructions w)
       = [ [("role", "system");
            ("content", customised_system_content text)] ]).
Proof.
  split; [| split].
  - destruct (globals_after_cases env args custom_instructions w)
      as [-> | (basic & out & text & g & _ & _ & _ & Hsub & ->)].
    + reflexivity.
    + exact (substitute_keeps_chat_roles _ _ _ Hsub).
  - intros Hfalsy.
    destruct (globals_after_cases env args custom_instructions w)
      as [-> | (basic & out & text & g & _ & _ & Htruthy & _ & _)].
    + reflexivity.
    + rewrite Hfalsy in Htruthy. discriminate Htruthy.
  - intros text basic out -> Htruthy Hinit Hbasic.
    unfold globals_after, get_agent_conversation_pipeline.
    rewrite Hbasic. destruct basic as [[generator tokenizer] tools_objects_map].
    rewrite Htruthy, Hinit, substitute_initial_globals.
    destruct (EnhancedToolsManager_init _ _ _); [| reflexivity].
    destruct (EnhancedConversationMemory_init _ _). reflexivity.
Qed.

Lemma pipeline_template_effect_witness :
  AGENT_SYSTEM_ROLES
    (globals_after Sample.env tt (Some "Be brief.") Sample.world)
  = [ [("role", "system");
       ("content", customised_system_content "Be brief.")] ].
Proof.
  eapply (proj2 (proj2 (pipeline_template_effect Sample.env tt
                          (Some "Be brief.") Sample.world))
            "Be brief." _ _); reflexivity.
Defined.

(** C2 as stated fails: a call with custom instructions changes the
    system-role template, and the result of the next call depends on it:
    the call that returns an agent on the templates of the module raises
    [KeyError] after the earlier call. *)
Lemma template_purity_counterexample :
  globals_after Sample.env tt (Some "Be brief.") Sample.world
    <> globals Sample.world /\
  (exists agent,
     (get_agent_conversation_pipeline Sample.env tt
        (Some "Answer in French.") Sample.world).1 = Returned agent) /\
  (get_agent_conversation_pipeline Sample.env tt (Some "Answer in French.")
     (get_agent_conversation_pipeline Sample.env tt (Some "Be brief.")
        Sample.world).2).1
    = Raised (KeyError (PStr (dq +:+ "input" +:+ dq))).
Proof.
  split; [| split].
  - intros H. apply (f_equal AGENT_SYSTEM_ROLES) in H.
    vm_compute in H. discriminate H.
  - eexists. vm_compute. reflexivity.
  - vm_compute. reflexivity.
Qed.

(** The agent is handed [AGENT_ROLES] by reference: an agent built without
    custom instructions reads the customised system template once a later
    call has substituted it. *)
Example earlier_agent_sees_later_substitution :
  let first := get_agent_conversation_pipeline Sample.env tt None Sample.world in
  let second :=
    get_agent_conversation_pipeline Sample.env tt (Some "Be brief.") first.2 in
  exists tools_manager,
    first.1 = Returned (Ref_AGENT_ROLES, tools_manager) /\
    dict_get (deref (globals first.2) Ref_AGENT_ROLES) "system"
      = Some [ [("role", "system"); ("content", system_content)] ] /\
    dict_get (deref (globals second.2) Ref_AGENT_ROLES) "system"
      = Some [ [("role", "system");
                ("content", customised_system_content "Be brief.")] ].
Proof.
  eexists. split; [| split]; vm_compute; reflexivity.
Qed.

(** * Further properties *)

(** ** Runs of dispatches *)

Lemma execute_tool_effect console self tool_name kwargs out :
  follows (ToolsManager_execute_tool (tools self) tool_name kwargs)
    (execute_tool console self tool_name kwargs out).1.1 /\
  (debug_mode self = false \/ (forall line, console line = None) ->
   (execute_tool console self tool_name kwargs out).1.1
     = ToolsManager_execute_tool (tools self) tool_name kwargs) /\
  tools (execute_tool console self tool_name kwargs out).1.2 = tools self /\
  debug_mode (execute_tool console self tool_name kwargs out).1.2
    = debug_mode self /\
  tool_execution_history (execute_tool console self tool_name kwargs out).1.2
    = tool_execution_history self
        ++ recorded (tools self) (mkDispatch tool_name kwargs).
Proof.
  unfold recorded, follows. simpl.
  destruct (ToolsManager_execute_tool (tools self) tool_name kwargs)
    as [v|e] eqn:Hbase.
  - unfold execute_tool. rewrite Hbase. repeat split; reflexivity.
  - destruct (execute_tool_raised_history console self tool_name kwargs out e
                Hbase) as (Hexn & Hsame & Hself).
    rewrite Hself, app_nil_r. repeat split; try exact Hexn.
    intros [Hoff | Hquiet]; apply Hsame; [left; exact Hoff |].
    right. right. split; apply Hquiet.
Qed.

Lemma execute_tools_cons console self c rest out :
  execute_tools console self (c :: rest) out =
    (let r := execute_tool console self (d_tool c) (d_kwargs c) out in
     let rs := execute_tools console r.1.2 rest r.2 in
     (r.1.1 :: rs.1.1, rs.1.2, rs.2)).
Proof.
  simpl. destruct (execute_tool console self (d_tool c) (d_kwargs c) out)
    as [[res self'] out']. simpl.
  destruct (execute_tools console self' rest out') as [[ress self''] out''].
  reflexivity.
Qed.

(** X1: over any run of dispatches the execution history only grows at its
    end: it is the history before the run followed by one success record
    for each dispatch that returned, in the order of the dispatches.  The
    registry and the debug flag are the same after the run.  Each outcome
    follows the base dispatch: a returned value is handed on and a raised
    dispatch raises; with the debug flag off, or on a console that prints
    every line, each outcome is exactly that of the base dispatch. *)
Theorem execute_tools_history (console : Console) (calls : list Dispatch) :
  forall (self : EnhancedToolsManager) (out : Stdout),
    tool_execution_history (execute_tools console self calls out).1.2
      = tool_execution_history self ++ flat_map (recorded (tools self)) calls /\
    tools (execute_tools console self calls out).1.2 = tools self /\
    debug_mode (execute_tools console self calls out).1.2 = debug_mode self /\
    Forall2 follows
      (map (fun c =>
              ToolsManager_execute_tool (tools self) (d_tool c) (d_kwargs c))
           calls)
      (execute_tools console self calls out).1.1 /\
    (debug_mode self = false \/ (forall line, console line = None) ->
     (execute_tools console self calls out).1.1
       = map (fun c =>
                ToolsManager_execute_tool (tools self) (d_tool c) (d_kwargs c))
             calls).
Proof.
  induction calls as [|c calls IH]; intros self out.
  - simpl. rewrite app_nil_r. repeat split; try reflexivity. constructor.
  - rewrite execute_tools_cons. cbv zeta. simpl.
    destruct (execute_tool_effect console self (d_tool c) (d_kwargs c) out)
      as (Hfollows & Hsame & Htools & Hdebug & Hhist).
    destruct (IH (execute_tool console self (d_tool c) (d_kwargs c) out).1.2
                 (execute_tool console self (d_tool c) (d_kwargs c) out).2)
      as (IHhist & IHtools & IHdebug & IHfollows & IHsame).
    rewrite Htools in IHfollows, IHsame. rewrite Hdebug in IHsame.
    rewrite IHhist, IHtools, IHdebug, Hhist, Htools, Hdebug.
    destruct c as [tool_name kwargs]. simpl in *.
    rewrite <- app_assoc. repeat split; try reflexivity.
    + constructor; assumption.
    + intros Hquiet. now rewrite (Hsame Hquiet), (IHsame Hquiet).
Qed.

(** X2: a manager built by the constructor never holds a failure record:
    after any run of dispatches every record of its history has status
    success, and there are at most as many records as dispatches. *)
Theorem history_holds_successes_only console super_init ts debug self
    (calls : list Dispatch) (out : Stdout) :
  EnhancedToolsManager_init super_init ts debug = Returned self ->
  Forall (fun r => dict_get r "status" = Some (PStr "success"))
    (tool_execution_history (execute_tools console self calls out).1.2) /\
  length (tool_execution_history (execute_tools console self calls out).1.2)
    <= length calls.
Proof.
  intros Hinit.
  assert (Hempty : tool_execution_history self = []).
  { unfold EnhancedToolsManager_init in Hinit.
    destruct (super_init ts); [| discriminate].
    simpl in Hinit. injection Hinit as <-. reflexivity. }
  destruct (execute_tools_history console calls self out) as (-> & _).
  rewrite Hempty. simpl. clear Hempty Hinit. split.
  - induction calls as [|c calls IH]; simpl; [constructor |].
    apply Forall_app. split; [| exact IH].
    unfold recorded. destruct (ToolsManager_execute_tool _ _ _);
      repeat constructor.
  - induction calls as [|c calls IH]; simpl; [lia |].
    rewrite length_app. unfold recorded at 1.
    destruct (ToolsManager_execute_tool _ _ _); simpl; lia.
Qed.

Lemma history_holds_successes_only_witness :
  Forall (fun r => dict_get r "status" = Some (PStr "success"))
    (tool_execution_history
       (execute_tools reliable (Sample.manager true)
          [mkDispatch "search" Sample.kwargs;
           mkDispatch "calculator" Sample.kwargs;
           mkDispatch "unknown_tool" []] []).1.2) /\
  length
    (tool_execution_history
       (execute_tools reliable (Sample.manager true)
          [mkDispatch "search" Sample.kwargs;
           mkDispatch "calculator" Sample.kwargs;
           mkDispatch "unknown_tool" []] []).1.2) <= 3.
Proof.
  apply (history_holds_successes_only reliable
           (fun _ => Returned Sample.registry)
           [Sample.search; Sample.calculator] true (Sample.manager true)).
  reflexivity.
Defined.


(** ** The memory and the heap *)

Lemma lookup_alloc (h : Heap) (d : PyDict PyVal) :
  h !! (alloc h d).1 = None /\
  (alloc h d).2 !! (alloc h d).1 = Some d /\
  forall l d', h !! l = Some d' -> (alloc h d).2 !! l = Some d'.
Proof.
  unfold alloc, Heap, PyDict in *. cbn [fst snd]. split; [| split].
  - apply lookup_ge_None. lia.
  - rewrite lookup_app_r by lia. now rewrite Nat.sub_diag.
  - intros l d' Hl. rewrite lookup_app_l; [exact Hl |].
    apply lookup_lt_Some in Hl. exact Hl.
Qed.

(** X4: the constructor of the memory gives it two dict objects of its
    own: [user_data] and [system_configs] are two different locations,
    neither was in the heap before, both hold an empty dict afterwards,
    every object that was in the heap is still there unchanged, and the
    memory starts with no turn. *)
Theorem memory_init_allocates_fresh_dicts {G : Type} (generator : G)
    (h : Heap) :
  let memory := (EnhancedConversationMemory_init generator h).1 in
  let h' := (EnhancedConversationMemory_init generator h).2 in
  user_data memory <> system_configs memory /\
  h !! user_data memory = None /\
  h !! system_configs memory = None /\
  h' !! user_data memory = Some [] /\
  h' !! system_configs memory = Some [] /\
  (forall l d, h !! l = Some d -> h' !! l = Some d) /\
  tool_history memory = [] /\
  memory_generator memory = generator.
Proof.
  unfold EnhancedConversationMemory_init, alloc, Heap, PyDict in *.
  cbn [fst snd user_data system_configs tool_history memory_generator].
  rewrite !length_app. simpl. repeat split.
  - lia.
  - apply lookup_ge_None. lia.
  - apply lookup_ge_None. lia.
  - rewrite lookup_app_l by (rewrite length_app; simpl; lia).
    rewrite lookup_app_r by lia. now rewrite Nat.sub_diag.
  - rewrite lookup_app_r by (rewrite length_app; simpl; lia).
    rewrite length_app. simpl.
    now replace (length h + 1 - (length h + 1)) with 0 by lia.
  - intros l d Hl. pose proof (lookup_lt_Some _ _ _ Hl) as Hlt.
    rewrite lookup_app_l by (rewrite length_app; simpl; lia).
    rewrite lookup_app_l by lia. exact Hl.
Qed.

(** X5: two memories never share their dicts: when a second memory is
    built after a first one, its [user_data] and [system_configs] are
    different from both locations of the first. *)
Theorem memories_do_not_share_dicts {G : Type} (g1 g2 : G) (h : Heap) :
  let first := EnhancedConversationMemory_init g1 h in
  let second := EnhancedConversationMemory_init g2 first.2 in
  system_configs second.1 <> system_configs first.1 /\
  system_configs second.1 <> user_data first.1 /\
  user_data second.1 <> system_configs first.1 /\
  user_data second.1 <> user_data first.1.
Proof.
  unfold EnhancedConversationMemory_init, alloc. simpl.
  rewrite !length_app. simpl. repeat split; lia.
Qed.

Lemma add_interactions_references {G : Type} (calls : list Interaction) :
  forall (self : EnhancedConversationMemory G) (out : Stdout),
    system_configs (add_interactions self calls out).1 = system_configs self /\
    user_data (add_interactions self calls out).1 = user_data self /\
    memory_generator (add_interactions self calls out).1
      = memory_generator self.
Proof.
  induction calls as [|c calls IH]; intros self out; simpl.
  - repeat split; reflexivity.
  - destruct (IH (add_interaction self (i_query c) (i_response c)
                    (i_metadata c) out).1
                 (add_interaction self (i_query c) (i_response c)
                    (i_metadata c) out).2) as (H1 & H2 & H3).
    simpl in *. repeat split; assumption.
Qed.

(** X6: every turn recorded on a new memory refers to one and the same
    mapping, the [system_configs] of the memory: the reference is stored,
    not a copy, and no call of [add_interaction] rebinds [system_configs],
    [user_data] or the generator. *)
Theorem turns_share_system_configs {G : Type} (generator : G) (h : Heap)
    (calls : list Interaction) (out : Stdout) :
  let new := (EnhancedConversationMemory_init generator h).1 in
  let memory := (add_interactions new calls out).1 in
  Forall (fun entry =>
            dict_get entry "system_config" = Some (PRef (system_configs memory)))
         (tool_history memory) /\
  system_configs memory = system_configs new /\
  user_data memory = user_data new /\
  memory_generator memory = generator.
Proof.
  intros new memory.
  destruct (add_interactions_references calls new out) as (Hsc & Hud & Hgen).
  fold memory in Hsc, Hud, Hgen.
  split; [| split; [exact Hsc | split; [exact Hud | exact Hgen]]].
  unfold memory at 2. rewrite add_interactions_tool_history, Hsc. simpl.
  apply Forall_forall. intros entry Hin.
  apply list_elem_of_In, in_map_iff in Hin.
  destruct Hin as (c & <- & _). reflexivity.
Qed.


(** ** Loading the generator: when it returns and what it prints *)

Lemma bind_returned_inv {A B : Type} (m : Outcome A) (f : A -> Outcome B) b :
  bind m f = Returned b -> exists a, m = Returned a /\ f a = Returned b.
Proof. destruct m as [a|e]; simpl; [eauto | discriminate]. Qed.

Lemma subscript_returned_inv v k x :
  subscript v k = Returned x -> exists d, v = PDict d /\ dict_get d k = Some x.
Proof.
  destruct v; simpl; try discriminate. unfold getitem.
  destruct (dict_get d k) eqn:Hget; [| discriminate].
  intros [= <-]. eauto.
Qed.

Lemma get_generator_returned_steps env cfg out generator tokenizer :
  (get_generator env cfg out).1 = Returned (generator, tokenizer) ->
  exists config class_path generator_class generator_kwargs model tokenizer0
         stopping_criterion generator0,
    cfg = PDict config /\
    dict_get config "generator_class" = Some (PStr class_path) /\
    resolve_class env (split_on "." class_path) = Returned generator_class /\
    dict_get config "generator_kwargs" = Some (PDict generator_kwargs) /\
    dict_get generator_kwargs "model" = Some model /\
    from_pretrained env model = Returned tokenizer0 /\
    StopWordsByTextCriteria env (ensure_pad_token tokenizer0)
      stop_word_list "cpu" = Returned stopping_criterion /\
    construct env generator_class generator_kwargs = Returned generator0 /\
    warm_up env generator0 = Returned generator /\
    tokenizer = ensure_pad_token tokenizer0.
Proof.
  unfold get_generator. intros H.
  destruct (subscript cfg "generator_class") as [class_path|] eqn:Hclass;
    [| discriminate].
  destruct (subscript_returned_inv _ _ _ Hclass) as (config & -> & Hcp).
  simpl in H.
  destruct class_path as [| |class_path| | |]; simpl in H; try discriminate.
  destruct (resolve_class env (split_on "." class_path))
    as [generator_class|] eqn:Hresolve; [| discriminate].
  simpl in H. unfold getitem in H at 1.
  destruct (dict_get config "generator_kwargs") as [kw|] eqn:Hkw;
    [| discriminate].
  simpl in H.
  destruct (subscript kw "model") as [model|] eqn:Hmodel; [| discriminate].
  destruct (subscript_returned_inv _ _ _ Hmodel)
    as (generator_kwargs & -> & Hm).
  simpl in H.
  destruct (from_pretrained env model) as [tokenizer0|] eqn:Htok;
    [| discriminate].
  simpl in H.
  destruct (StopWordsByTextCriteria env _ _ _) as [sw|] eqn:Hsw;
    [| discriminate].
  simpl in H. unfold getitem in H. rewrite Hkw in H. simpl in H.
  destruct (construct env generator_class generator_kwargs)
    as [generator0|] eqn:Hgen; [| discriminate].
  simpl in H.
  destruct (warm_up env generator0) as [generator'|] eqn:Hwarm;
    [| discriminate].
  simpl in H. injection H as <- <-.
  exists config, class_path, generator_class, generator_kwargs, model,
    tokenizer0, sw, generator0.
  repeat split; assumption || reflexivity.
Qed.

(** X8: [get_generator] returns a pair only when every step on the way
    succeeded: the configuration is a mapping with a string under
    [generator_class] and a mapping under [generator_kwargs] that has a
    [model]; the class was resolved, the tokenizer loaded, the stop-words
    criterion built, the generator constructed from [generator_kwargs] and
    warmed up.  The tokenizer returned is the loaded one after the pad
    token fix, and the model configuration line has been printed. *)
Theorem get_generator_returned_inv env cfg out generator tokenizer :
  (get_generator env cfg out).1 = Returned (generator, tokenizer) ->
  exists config class_path generator_class generator_kwargs model tokenizer0
         stopping_criterion generator0,
    cfg = PDict config /\
    dict_get config "generator_class" = Some (PStr class_path) /\
    resolve_class env (split_on "." class_path) = Returned generator_class /\
    dict_get config "generator_kwargs" = Some (PDict generator_kwargs) /\
    dict_get generator_kwargs "model" = Some model /\
    from_pretrained env model = Returned tokenizer0 /\
    StopWordsByTextCriteria env (ensure_pad_token tokenizer0)
      stop_word_list "cpu" = Returned stopping_criterion /\
    construct env generator_class generator_kwargs = Returned generator0 /\
    warm_up env generator0 = Returned generator /\
    tokenizer = ensure_pad_token tokenizer0 /\
    (get_generator env cfg out).2 = out ++ [PrintFmt "Model config: " cfg].
Proof.
  intros Hret.
  destruct (get_generator_returned_steps env cfg out generator tokenizer Hret)
    as (config & class_path & generator_class & generator_kwargs & model &
        tokenizer0 & sw & generator0 & -> & Hcp & Hresolve & Hkw & Hm & Htok &
        Hsw & Hgen & Hwarm & ->).
  exists config, class_path, generator_class, generator_kwargs, model,
    tokenizer0, sw, generator0.
  repeat split; try assumption.
  rewrite (get_generator_prefix env (PDict config) out class_path
             generator_class generator_kwargs model tokenizer0).
  - rewrite Hsw. reflexivity.
  - simpl. unfold getitem. now rewrite Hcp.
  - exact Hresolve.
  - simpl. unfold getitem. now rewrite Hkw.
  - exact Hm.
  - exact Htok.
Qed.

Lemma get_generator_returned_inv_witness :
  exists config class_path generator_class generator_kwargs model tokenizer0
         stopping_criterion generator0,
    PDict Sample.chat_model = PDict config /\
    dict_get config "generator_class" = Some (PStr class_path) /\
    resolve_class Sample.env (split_on "." class_path)
      = Returned generator_class /\
    dict_get config "generator_kwargs" = Some (PDict generator_kwargs) /\
    dict_get generator_kwargs "model" = Some model /\
    from_pretrained Sample.env model = Returned tokenizer0 /\
    StopWordsByTextCriteria Sample.env (ensure_pad_token tokenizer0)
      stop_word_list "cpu" = Returned stopping_criterion /\
    construct Sample.env generator_class generator_kwargs
      = Returned generator0 /\
    warm_up Sample.env generator0 = Returned ([("model", PStr "llama")], true) /\
    {| name_or_path := "llama"; pad_token := Some "</s>";
       eos_token := Some "</s>" |} = ensure_pad_token tokenizer0 /\
    (get_generator Sample.env (PDict Sample.chat_model) []).2
      = [] ++ [PrintFmt "Model config: " (PDict Sample.chat_model)].
Proof.
  apply (get_generator_returned_inv Sample.env (PDict Sample.chat_model) []).
  reflexivity.
Defined.

(** X9: whenever [get_generator] returns, a tokenizer that has an
    end-of-sequence token has a pad token, and the pad token fix is
    stable: applying it to the returned tokenizer changes nothing. *)
Theorem get_generator_tokenizer_can_pad env cfg out generator tokenizer :
  (get_generator env cfg out).1 = Returned (generator, tokenizer) ->
  (truthy (eos_token tokenizer) = true -> truthy (pad_token tokenizer) = true) /\
  ensure_pad_token tokenizer = tokenizer.
Proof.
  intros Hret.
  destruct (get_generator_returned_inv env cfg out generator tokenizer Hret)
    as (_ & _ & _ & _ & _ & tokenizer0 & _ & _ &
        _ & _ & _ & _ & _ & _ & _ & _ & _ & -> & _).
  unfold ensure_pad_token.
  destruct (truthy (pad_token tokenizer0)) eqn:Hpad.
  - rewrite Hpad. split; [intros _; reflexivity | reflexivity].
  - simpl. split; [intros Heos; exact Heos |].
    destruct (truthy (eos_token tokenizer0)); reflexivity.
Qed.

Lemma get_generator_tokenizer_can_pad_witness :
  (truthy (eos_token
             {| name_or_path := "llama"; pad_token := Some "</s>";
                eos_token := Some "</s>" |}) = true ->
   truthy (pad_token
             {| name_or_path := "llama"; pad_token := Some "</s>";
                eos_token := Some "</s>" |}) = true) /\
  ensure_pad_token
    {| name_or_path := "llama"; pad_token := Some "</s>";
       eos_token := Some "</s>" |}
  = {| name_or_path := "llama"; pad_token := Some "</s>";
       eos_token := Some "</s>" |}.
Proof.
  apply (get_generator_tokenizer_can_pad Sample.env (PDict Sample.chat_model)
           [] ([("model", PStr "llama")], true)).
  reflexivity.
Defined.

(** X10: a configuration that cannot name a generator class is refused
    before anything is imported, loaded or printed: a value that is not a
    mapping raises [TypeError], a mapping without [generator_class] raises
    [KeyError] for that key, and a class path that is not a string raises
    [AttributeError]; the outcome is the same for every environment and
    the standard output is untouched. *)
Theorem get_generator_refuses_bad_class_config env cfg out :
  match cfg with
  | PDict config =>
      match dict_get config "generator_class" with
      | None =>
          get_generator env cfg out
            = (Raised (KeyError (PStr "generator_class")), out)
      | Some (PStr class_path) =>
          forall e,
            resolve_class env (split_on "." class_path) = Raised e ->
            get_generator env cfg out = (Raised e, out)
      | Some _ => get_generator env cfg out = (Raised AttributeError, out)
      end
  | _ => get_generator env cfg out = (Raised TypeError, out)
  end.
Proof.
  destruct cfg as [| | | |config|]; try reflexivity.
  destruct (dict_get config "generator_class") as [class_path|] eqn:Hcp.
  - destruct class_path; try intros e He; unfold get_generator; simpl;
      unfold getitem; rewrite Hcp; simpl; try rewrite He; reflexivity.
  - unfold get_generator. simpl. unfold getitem. rewrite Hcp. reflexivity.
Qed.

(** ** The class path *)




(** ** The registration loop *)

Lemma register_tools_cons env tool_config rest tools_objects_map :
  register_tools env (tool_config :: rest) tools_objects_map =
    (let* entry := tool_entry env tool_config in
     register_tools env rest (dict_set tools_objects_map entry.1 entry.2)).
Proof.
  unfold tool_entry. simpl.
  destruct (subscript tool_config "type"); [| reflexivity]. simpl.
  destruct (factory_lookup env a); [| reflexivity]. simpl.
  destruct (subscript tool_config "params") as [params|]; [| reflexivity].
  simpl. destruct (call_with_kwargs a0 params); [| reflexivity]. simpl.
  destruct (subscript params "name"); [| reflexivity]. simpl.
  destruct (hash_key a2); reflexivity.
Qed.

(** X12: the registration loop is all or nothing and stores in the order
    of the configuration: it returns exactly when the loop body succeeds
    on every tool configuration, with the map obtained by storing the
    entries one after the other, and otherwise raises what the first
    failing configuration raises, whatever the map held. *)
Theorem register_tools_for_each env (tool_configs : list PyVal) :
  forall tools_objects_map : list (PyKey * Tool),
    register_tools env tool_configs tools_objects_map =
      (let* entries := for_each (tool_entry env) tool_configs in
       Returned (store_all tools_objects_map entries)).
Proof.
  induction tool_configs as [|tool_config rest IH]; intros tools_objects_map.
  - reflexivity.
  - rewrite register_tools_cons. simpl.
    destruct (tool_entry env tool_config) as [[key tool_obj]|e];
      [| reflexivity].
    simpl. rewrite IH.
    destruct (for_each (tool_entry env) rest); reflexivity.
Qed.

(** X13: registering the tools of two lists one after the other is
    registering the tools of the joined list: the loop keeps no state
    besides the map. *)
Theorem register_tools_app env (first second : list PyVal) :
  forall tools_objects_map : list (PyKey * Tool),
    register_tools env (first ++ second) tools_objects_map =
      (let* registered := register_tools env first tools_objects_map in
       register_tools env second registered).
Proof.
  induction first as [|tool_config rest IH]; intros tools_objects_map.
  - reflexivity.
  - rewrite <- app_comm_cons, !register_tools_cons.
    destruct (tool_entry env tool_config) as [entry|e]; [| reflexivity].
    simpl. apply IH.
Qed.

Lemma dict_keys_set {K V : Type} `{EqDecision K} (d : list (K * V)) k v :
  dict_keys (dict_set d k v) =
    if decide (k ∈ dict_keys d) then dict_keys d else dict_keys d ++ [k].
Proof.
  unfold dict_keys. induction d as [|[k' v'] d IH].
  - destruct (decide (k ∈ map fst (@nil (K * V)))) as [Hin|_];
      [| reflexivity].
    simpl in Hin. apply elem_of_nil in Hin. destruct Hin.
  - cbn [dict_set map fst].
    destruct (decide (k' = k)) as [->|Hne]; cbn [map fst].
    + destruct (decide (k ∈ k :: map fst d)) as [_|Hnin]; [reflexivity |].
      destruct Hnin. apply list_elem_of_here.
    + rewrite IH. destruct (decide (k ∈ map fst d)) as [Hin|Hnin];
        destruct (decide (k ∈ k' :: map fst d)) as [Hin'|Hnin'];
        try reflexivity.
      * destruct Hnin'. apply list_elem_of_further. exact Hin.
      * apply elem_of_cons in Hin' as [Heq|Hin'];
          [destruct (Hne (eq_sym Heq)) | destruct (Hnin Hin')].
Qed.

Lemma store_all_keys (entries : list (PyKey * Tool)) :
  forall tools_objects_map : list (PyKey * Tool),
    dict_keys (store_all tools_objects_map entries)
      = dict_keys tools_objects_map
          ++ first_appearances (dict_keys tools_objects_map)
               (dict_keys entries) /\
    (NoDup (dict_keys tools_objects_map) ->
     NoDup (dict_keys (store_all tools_objects_map entries))) /\
    length (store_all tools_objects_map entries)
      <= length tools_objects_map + length entries.
Proof.
  induction entries as [|[key tool_obj] entries IH]; intros tools_objects_map.
  - simpl. rewrite app_nil_r. split; [reflexivity | split; [tauto | lia]].
  - change (store_all tools_objects_map ((key, tool_obj) :: entries))
      with (store_all (dict_set tools_objects_map key tool_obj) entries).
    assert (Hkeys := dict_keys_set tools_objects_map key tool_obj).
    destruct (IH (dict_set tools_objects_map key tool_obj))
      as (Horder & Hnodup & Hlen).
    rewrite Hkeys in Horder, Hnodup.
    assert (Hl : length (dict_set tools_objects_map key tool_obj)
                   <= S (length tools_objects_map)).
    { apply (f_equal length) in Hkeys. unfold dict_keys in Hkeys.
      rewrite length_map in Hkeys. rewrite Hkeys.
      destruct (decide (key ∈ map fst tools_objects_map));
        rewrite ?length_app, length_map; simpl; lia. }
    change (dict_keys ((key, tool_obj) :: entries))
      with (key :: dict_keys entries).
    cbn [first_appearances].
    destruct (decide (key ∈ dict_keys tools_objects_map)) as [Hin|Hnin].
    + split; [exact Horder | split; [exact Hnodup | simpl; lia]].
    + split; [| split; [| simpl; lia]].
      * rewrite Horder, <- app_assoc. reflexivity.
      * intros Hnd. apply Hnodup, NoDup_app.
        split; [exact Hnd | split; [| apply NoDup_singleton]].
        intros x Hx Hx'. apply list_elem_of_singleton in Hx'. subst x.
        exact (Hnin Hx).
Qed.

(** X14: the map of tools never holds two tools under one name, and its
    order is that of the configuration.  When the loop returns, the names
    of the map are the names that were there, in their places, followed
    by the new names of the configurations in the order in which each
    first appears; they are without repetition if they were before, and
    the map has grown by at most one tool for each configuration. *)
Theorem register_tools_keeps_names_unique env (tool_configs : list PyVal)
    (tools_objects_map registered : list (PyKey * Tool)) :
  register_tools env tool_configs tools_objects_map = Returned registered ->
  NoDup (dict_keys tools_objects_map) ->
  exists entries,
    for_each (tool_entry env) tool_configs = Returned entries /\
    dict_keys registered
      = dict_keys tools_objects_map
          ++ first_appearances (dict_keys tools_objects_map)
               (dict_keys entries) /\
    NoDup (dict_keys registered) /\
    length registered <= length tools_objects_map + length tool_configs.
Proof.
  rewrite register_tools_for_each. intros Hreg Hnodup.
  destruct (for_each (tool_entry env) tool_configs) as [entries|] eqn:Hentries;
    [| discriminate].
  simpl in Hreg. injection Hreg as <-.
  assert (Hlen : length entries = length tool_configs).
  { clear Hnodup. revert entries Hentries.
    induction tool_configs as [|c cs IH]; intros entries Hentries; simpl in *.
    - injection Hentries as <-. reflexivity.
    - destruct (tool_entry env c); [| discriminate]. simpl in Hentries.
      destruct (for_each (tool_entry env) cs) as [ys|]; [| discriminate].
      simpl in Hentries. injection Hentries as <-. simpl.
      now rewrite (IH ys eq_refl). }
  destruct (store_all_keys entries tools_objects_map)
    as (Horder & Hnd & Hbound).
  exists entries. rewrite <- Hlen.
  split; [reflexivity | split; [exact Horder | split; [exact (Hnd Hnodup) |]]].
  exact Hbound.
Qed.

Lemma register_tools_keeps_names_unique_witness :
  exists entries,
    for_each (tool_entry Sample.env)
      [Sample.tool_config "doc" "lookup"; Sample.tool_config "image" "find";
       Sample.tool_config "image" "lookup"] = Returned entries /\
    dict_keys
      [(KStr "lookup",
        {| name := "lookup"; description := "image";
           invoke := fun _ => Returned (PStr "image") |});
       (KStr "find",
        {| name := "find"; description := "image";
           invoke := fun _ => Returned (PStr "image") |})]
      = dict_keys (@nil (PyKey * Tool))
          ++ first_appearances (dict_keys (@nil (PyKey * Tool)))
               (dict_keys entries) /\
    NoDup
      (dict_keys
         [(KStr "lookup",
           {| name := "lookup"; description := "image";
              invoke := fun _ => Returned (PStr "image") |});
          (KStr "find",
           {| name := "find"; description := "image";
              invoke := fun _ => Returned (PStr "image") |})]) /\
    length
      [(KStr "lookup",
        {| name := "lookup"; description := "image";
           invoke := fun _ => Returned (PStr "image") |});
       (KStr "find",
        {| name := "find"; description := "image";
           invoke := fun _ => Returned (PStr "image") |})] <= 0 + 3.
Proof.
  apply (register_tools_keeps_names_unique Sample.env
           [Sample.tool_config "doc" "lookup";
            Sample.tool_config "image" "find";
            Sample.tool_config "image" "lookup"] []).
  - reflexivity.
  - constructor.
Defined.

Lemma dict_get_app {K V : Type} `{EqDecision K} (d1 d2 : list (K * V)) k :
  dict_get (d1 ++ d2) k =
    match dict_get d1 k with
    | Some v => Some v
    | None => dict_get d2 k
    end.
Proof.
  induction d1 as [|[k' v'] d1 IH]; simpl; [reflexivity |].
  destruct (decide (k' = k)); [reflexivity | exact IH].
Qed.

Lemma store_all_lookup (entries : list (PyKey * Tool)) :
  forall (tools_objects_map : list (PyKey * Tool)) (key : PyKey),
    dict_get (store_all tools_objects_map entries) key =
      match dict_get (rev entries) key with
      | Some tool_obj => Some tool_obj
      | None => dict_get tools_objects_map key
      end.
Proof.
  induction entries as [|[k t] entries IH]; intros tools_objects_map key.
  - reflexivity.
  - change (store_all tools_objects_map ((k, t) :: entries))
      with (store_all (dict_set tools_objects_map k t) entries).
    rewrite IH. simpl rev. rewrite dict_get_app.
    destruct (dict_get (rev entries) key); [reflexivity |].
    simpl. destruct (decide (k = key)) as [->|Hne].
    + apply dict_get_set_eq.
    + now apply dict_get_set_ne.
Qed.

(** X15: the last configuration of a name wins.  When the loop returns,
    the tool found under a name is the one built for the last
    configuration that carries this name, and a name that no
    configuration carries keeps the tool it had. *)
Theorem register_tools_last_wins env (tool_configs : list PyVal)
    (tools_objects_map registered : list (PyKey * Tool)) :
  register_tools env tool_configs tools_objects_map = Returned registered ->
  exists entries,
    for_each (tool_entry env) tool_configs = Returned entries /\
    forall key,
      dict_get registered key =
        match dict_get (rev entries) key with
        | Some tool_obj => Some tool_obj
        | None => dict_get tools_objects_map key
        end.
Proof.
  rewrite register_tools_for_each. intros Hreg.
  destruct (for_each (tool_entry env) tool_configs) as [entries|];
    [| discriminate].
  simpl in Hreg. injection Hreg as <-.
  exists entries. split; [reflexivity | apply store_all_lookup].
Qed.

Lemma register_tools_last_wins_witness :
  exists entries,
    for_each (tool_entry Sample.env)
      [Sample.tool_config "doc" "lookup"; Sample.tool_config "image" "lookup"]
      = Returned entries /\
    forall key,
      dict_get
        [(KStr "lookup",
          {| name := "lookup"; description := "image";
             invoke := fun _ => Returned (PStr "image") |})] key =
        match dict_get (rev entries) key with
        | Some tool_obj => Some tool_obj
        | None => dict_get (@nil (PyKey * Tool)) key
        end.
Proof.
  apply (register_tools_last_wins Sample.env
           [Sample.tool_config "doc" "lookup";
            Sample.tool_config "image" "lookup"] []).
  reflexivity.
Defined.

(** ** The basic pipeline *)

Lemma get_basic_after_generator env args out conversation_config
    chat_model_config generator tokenizer out' :
  load_config env args = Returned (PDict conversation_config) ->
  dict_get conversation_config "chat_model" = Some chat_model_config ->
  get_generator env chat_model_config
    (out ++ [PrintFmt "Loaded config: " (PDict conversation_config)])
    = (Returned (generator, tokenizer), out') ->
  get_basic_conversation_pipeline env args out =
    (let* tools_objects_map :=
       match dict_get conversation_config "tools" with
       | Some tools_value =>
           let* tool_configs := iterate tools_value in
           register_tools env tool_configs []
       | None => Returned []
       end in
     Returned (generator, tokenizer, tools_objects_map), out').
Proof.
  intros Hload Hchat Hgen. unfold get_basic_conversation_pipeline.
  rewrite Hload. simpl. unfold getitem. rewrite Hchat, Hgen.
  unfold dict_contains.
  destruct (dict_get conversation_config "tools"); reflexivity.
Qed.

(** X16: the [tools] key of the configuration may be left out, but not
    left empty.  Once the generator is loaded, a configuration without the
    key, or with an empty list under it, gives the pipeline without any
    tool; a key with no value ([None]) or with a number raises
    [TypeError], and so does a mapping or a text under the key unless it
    is empty, since the loop then runs over keys or characters. *)
Theorem get_basic_tools_key env args out conversation_config
    chat_model_config generator tokenizer out' :
  load_config env args = Returned (PDict conversation_config) ->
  dict_get conversation_config "chat_model" = Some chat_model_config ->
  get_generator env chat_model_config
    (out ++ [PrintFmt "Loaded config: " (PDict conversation_config)])
    = (Returned (generator, tokenizer), out') ->
  (get_basic_conversation_pipeline env args out).2 = out' /\
  match dict_get conversation_config "tools" with
  | None | Some (PList []) | Some (PDict []) | Some (PStr EmptyString) =>
      (get_basic_conversation_pipeline env args out).1
        = Returned (generator, tokenizer, [])
  | Some PNone | Some (PInt _) | Some (PRef _)
  | Some (PDict (_ :: _)) | Some (PStr (String _ _)) =>
      (get_basic_conversation_pipeline env args out).1 = Raised TypeError
  | Some (PList (_ :: _)) => True
  end.
Proof.
  intros Hload Hchat Hgen.
  rewrite (get_basic_after_generator env args out conversation_config
             chat_model_config generator tokenizer out' Hload Hchat Hgen).
  split; [reflexivity |].
  destruct (dict_get conversation_config "tools") as [tools_value|];
    [| reflexivity].
  destruct tools_value as [| |s|l|d|]; try reflexivity.
  - destruct s; reflexivity.
  - destruct l; [reflexivity | exact I].
  - destruct d as [|[k v] d]; reflexivity.
Qed.

Lemma get_basic_tools_key_witness :
  (get_basic_conversation_pipeline
     (with_config Sample.env config_with_null_tools) tt []).2
    = [PrintFmt "Loaded config: " config_with_null_tools;
       PrintFmt "Model config: " (PDict Sample.chat_model)] /\
  (get_basic_conversation_pipeline
     (with_config Sample.env config_with_null_tools) tt []).1
    = Raised TypeError.
Proof.
  apply (get_basic_tools_key (with_config Sample.env config_with_null_tools)
           tt []
           [("chat_model", PDict Sample.chat_model); ("tools", PNone)]
           (PDict Sample.chat_model) ([("model", PStr "llama")], true)
           {| name_or_path := "llama"; pad_token := Some "</s>";
              eos_token := Some "</s>" |}); reflexivity.
Defined.

(** ** The template substitution *)

Lemma prepend_empty (m : Outcome string) : prepend EmptyString m = m.
Proof. destruct m; reflexivity. Qed.

Lemma prepend_char c s (m : Outcome string) :
  prepend (String c EmptyString) (prepend s m) = prepend (String c s) m.
Proof. destruct m; reflexivity. Qed.

Lemma format_from_text_app (s rest : string) (kwargs : PyDict string) :
  brace_free s = true ->
  format_from InText (s +:+ rest) kwargs
    = prepend s (format_from InText rest kwargs).
Proof.
  induction s as [|c s IH]; intros Hfree.
  - simpl. now rewrite prepend_empty.
  - simpl in Hfree.
    apply andb_prop in Hfree as [Hc Hs]. apply andb_prop in Hc as [Ho Hcl].
    apply negb_true_iff in Ho, Hcl.
    change (String c s +:+ rest) with (String c (s +:+ rest)).
    cbn [format_from]. rewrite Ho, Hcl, (IH Hs). apply prepend_char.
Qed.

Lemma append_String c (s t : string) : String c s +:+ t = String c (s +:+ t).
Proof. reflexivity. Qed.

Lemma append_empty_r (s : string) : s +:+ EmptyString = s.
Proof.
  induction s as [|c s IH]; [reflexivity |].
  now rewrite append_String, IH.
Qed.

Lemma str_format_brace_free (s : string) (kwargs : PyDict string) :
  brace_free s = true -> str_format s kwargs = Returned s.
Proof.
  intros Hfree. unfold str_format.
  rewrite <- (append_empty_r s) at 1.
  rewrite format_from_text_app by exact Hfree. simpl.
  now rewrite append_empty_r.
Qed.

Lemma dict_set_same {K V : Type} `{EqDecision K} (d : list (K * V)) k v :
  dict_get d k = Some v -> dict_set d k v = d.
Proof.
  induction d as [|[k' v'] d IH]; simpl; [discriminate |].
  destruct (decide (k' = k)) as [->|Hne].
  - intros [= ->]. reflexivity.
  - intros Hget. now rewrite (IH Hget).
Qed.

(** X17: the substitution writes one entry only.  When it succeeds, the
    system roles are the old ones with the content of the first role
    replaced by its formatted text: the first role keeps its keys and
    every other entry, the later roles and the user-role templates are
    untouched. *)
Theorem substitute_changes_first_content_only g text g' :
  substitute_custom_instructions g text = Returned g' ->
  exists role later content content',
    AGENT_SYSTEM_ROLES g = role :: later /\
    dict_get role "content" = Some content /\
    str_format content (format_kwargs text) = Returned content' /\
    AGENT_SYSTEM_ROLES g' = dict_set role "content" content' :: later /\
    dict_keys (dict_set role "content" content') = dict_keys role /\
    (forall k, k <> "content" ->
       dict_get (dict_set role "content" content') k = dict_get role k) /\
    AGENT_CONVERSATION_BASE_ROLES g' = AGENT_CONVERSATION_BASE_ROLES g.
Proof.
  unfold substitute_custom_instructions. intros H.
  destruct (AGENT_SYSTEM_ROLES g) as [|role later] eqn:Hroles;
    [discriminate |].
  simpl in H. unfold getitem in H.
  destruct (dict_get role "content") as [content|] eqn:Hcontent;
    [| discriminate].
  simpl in H.
  destruct (str_format content (format_kwargs text)) as [content'|] eqn:Hfmt;
    [| discriminate].
  simpl in H. injection H as <-.
  exists role, later, content, content'. simpl.
  repeat split; try assumption || reflexivity.
  - apply dict_keys_set_present. rewrite Hcontent. eauto.
  - intros k Hk. apply dict_get_set_ne. congruence.
Qed.

Lemma substitute_changes_first_content_only_witness :
  exists role later content content',
    AGENT_SYSTEM_ROLES initial_globals = role :: later /\
    dict_get role "content" = Some content /\
    str_format content (format_kwargs "Be brief.") = Returned content' /\
    [ [("role", "system");
       ("content", customised_system_content "Be brief.")] ]
      = dict_set role "content" content' :: later /\
    dict_keys (dict_set role "content" content') = dict_keys role /\
    (forall k, k <> "content" ->
       dict_get (dict_set role "content" content') k = dict_get role k) /\
    AGENT_CONVERSATION_BASE_ROLES initial_globals
      = AGENT_CONVERSATION_BASE_ROLES initial_globals.
Proof.
  apply (substitute_changes_first_content_only initial_globals "Be brief."
           {| AGENT_SYSTEM_ROLES :=
                [ [("role", "system");
                   ("content", customised_system_content "Be brief.")] ];
              AGENT_CONVERSATION_BASE_ROLES :=
                AGENT_CONVERSATION_BASE_ROLES initial_globals |}).
  vm_compute. reflexivity.
Defined.

(** X18: custom instructions are dropped without notice when the system
    template has nothing to substitute: if the content of the first
    system role contains no brace, the substitution raises nothing and
    leaves the globals exactly as they were, whatever the instructions. *)
Theorem substitute_without_placeholder_is_silent g text role later content :
  AGENT_SYSTEM_ROLES g = role :: later ->
  dict_get role "content" = Some content ->
  brace_free content = true ->
  substitute_custom_instructions g text = Returned g.
Proof.
  intros Hroles Hcontent Hfree. unfold substitute_custom_instructions.
  rewrite Hroles. simpl. unfold getitem. rewrite Hcontent. simpl.
  rewrite (str_format_brace_free content _ Hfree). simpl.
  rewrite (dict_set_same role "content" content Hcontent).
  destruct g as [roles chat]. simpl in *. now rewrite Hroles.
Qed.

Lemma substitute_without_placeholder_is_silent_witness :
  substitute_custom_instructions
    {| AGENT_SYSTEM_ROLES :=
         [ [("role", "system"); ("content", "You are a helpful assistant.")] ];
       AGENT_CONVERSATION_BASE_ROLES := [] |} "Be brief."
  = Returned
      {| AGENT_SYSTEM_ROLES :=
           [ [("role", "system"); ("content", "You are a helpful assistant.")] ];
         AGENT_CONVERSATION_BASE_ROLES := [] |}.
Proof.
  apply (substitute_without_placeholder_is_silent _ "Be brief."
           [("role", "system"); ("content", "You are a helpful assistant.")]
           [] "You are a helpful assistant."); reflexivity.
Defined.

Lemma resubstitution_format (text1 text2 : string) :
  brace_free text1 = true ->
  str_format (customised_system_content text1) (format_kwargs text2)
    = Raised (KeyError (PStr (dq +:+ "input" +:+ dq))).
Proof.
  intros Hfree. unfold str_format, customised_system_content.
  rewrite format_from_text_app by (vm_compute; reflexivity).
  rewrite format_from_text_app by exact Hfree.
  match goal with
  | |- context [format_from InText ?rest ?kw] =>
      let r := eval vm_compute in (format_from InText rest kw) in
      change (format_from InText rest kw) with r
  end.
  reflexivity.
Qed.

(** X19: custom instructions can be given once.  After custom
    instructions without braces have been substituted into the system
    template of the module, every later construction with non-empty
    custom instructions raises [KeyError] for the quoted word input of the
    example, builds no agent and changes neither the templates nor the
    heap. *)
Theorem resubstitution_raises_key_error env args text1 text2 w basic out :
  brace_free text1 = true ->
  truthy (Some text2) = true ->
  AGENT_SYSTEM_ROLES (globals w)
    = [ [("role", "system"); ("content", customised_system_content text1)] ] ->
  get_basic_conversation_pipeline env args (stdout w) = (Returned basic, out) ->
  get_agent_conversation_pipeline env args (Some text2) w =
    (Raised (KeyError (PStr (dq +:+ "input" +:+ dq))),
     {| globals := globals w; heap := heap w; stdout := out |}).
Proof.
  intros Hfree Htruthy Hroles Hbasic.
  unfold get_agent_conversation_pipeline. rewrite Hbasic.
  destruct basic as [[generator tokenizer] tools_objects_map].
  rewrite Htruthy. unfold substitute_custom_instructions.
  rewrite Hroles. cbn [first_item bind]. unfold getitem.
  cbn [dict_get]. rewrite decide_False by discriminate.
  rewrite decide_True by reflexivity. cbn [bind].
  rewrite (resubstitution_format text1 text2 Hfree). reflexivity.
Qed.

Lemma resubstitution_raises_key_error_witness :
  get_agent_conversation_pipeline Sample.env tt (Some "Answer in French.")
    (get_agent_conversation_pipeline Sample.env tt (Some "Be brief.")
       Sample.world).2
  = (Raised (KeyError (PStr (dq +:+ "input" +:+ dq))),
     {| globals :=
          globals (get_agent_conversation_pipeline Sample.env tt
                     (Some "Be brief.") Sample.world).2;
        heap :=
          heap (get_agent_conversation_pipeline Sample.env tt
                  (Some "Be brief.") Sample.world).2;
        stdout :=
          (get_basic_conversation_pipeline Sample.env tt
             (stdout (get_agent_conversation_pipeline Sample.env tt
                        (Some "Be brief.") Sample.world).2)).2 |}).
Proof.
  eapply (resubstitution_raises_key_error Sample.env tt "Be brief."
            "Answer in French." _ _ _); vm_compute; reflexivity.
Defined.

(** ** Building the agent *)

(** X20: what an agent is made of.  When the basic pipeline returns and
    no custom instructions are given, the agent constructor is called
    with the generator, the template object [AGENT_ROLES] by reference, a
    new memory without turns whose two dicts are new objects of the heap,
    and a tools manager over the tools of the map in insertion order, with
    an empty history and the debug flag on.  The tokenizer is not handed
    on, and the templates are not touched. *)
Theorem agent_pipeline_parts env args custom_instructions w
    generator tokenizer tools_objects_map out registry :
  get_basic_conversation_pipeline env args (stdout w)
    = (Returned (generator, tokenizer, tools_objects_map), out) ->
  truthy custom_instructions = false ->
  ToolsManager_init env (dict_values tools_objects_map) = Returned registry ->
  get_agent_conversation_pipeline env args custom_instructions w =
    (Agent env generator Ref_AGENT_ROLES
       {| memory_generator := generator; tool_history := [];
          user_data := length (heap w);
          system_configs := S (length (heap w)) |}
       {| tools := registry; debug_mode := true;
          tool_execution_history := [] |},
     {| globals := globals w; heap := heap w ++ [[]; []]; stdout := out |}).
Proof.
  intros Hbasic Hfalsy Hinit. unfold get_agent_conversation_pipeline.
  rewrite Hbasic.
  assert (Hsub :
    match custom_instructions with
    | Some text =>
        if truthy custom_instructions
        then substitute_custom_instructions (globals w) text
        else Returned (globals w)
    | None => Returned (globals w)
    end = Returned (globals w)).
  { destruct custom_instructions; [now rewrite Hfalsy | reflexivity]. }
  rewrite Hsub. unfold EnhancedToolsManager_init. rewrite Hinit.
  unfold EnhancedConversationMemory_init, alloc, DEBUG_MODE. simpl.
  rewrite length_app, <- app_assoc. simpl.
  replace (length (heap w) + 1) with (S (length (heap w))) by lia.
  reflexivity.
Qed.

Lemma agent_pipeline_parts_witness :
  get_agent_conversation_pipeline Sample.env tt None Sample.world =
    (Agent Sample.env ([("model", PStr "llama")], true) Ref_AGENT_ROLES
       {| memory_generator := ([("model", PStr "llama")], true);
          tool_history := [];
          user_data := length (heap Sample.world);
          system_configs := S (length (heap Sample.world)) |}
       {| tools :=
            list_to_map
              [("lookup",
                {| name := "lookup"; description := "image";
                   invoke := fun _ => Returned (PStr "image") |})];
          debug_mode := true;
          tool_execution_history := [] |},
     {| globals := globals Sample.world;
        heap := heap Sample.world ++ [[]; []];
        stdout :=
          [PrintFmt "Loaded config: " Sample.config;
           PrintFmt "Model config: " (PDict Sample.chat_model)] |}).
Proof.
  apply (agent_pipeline_parts Sample.env tt None Sample.world
           ([("model", PStr "llama")], true)
           {| name_or_path := "llama"; pad_token := Some "</s>";
              eos_token := Some "</s>" |}
           [(KStr "lookup",
             {| name := "lookup"; description := "image";
                invoke := fun _ => Returned (PStr "image") |})]);
    reflexivity.
Defined.

(** X21: the construction is not all or nothing.  The template is
    substituted before the tools manager is built, so when the constructor
    of the tools manager raises, no agent is returned and no memory is
    allocated, but the system template stays substituted. *)
Theorem agent_pipeline_failure_keeps_substitution env args text w
    basic out g e :
  get_basic_conversation_pipeline env args (stdout w) = (Returned basic, out) ->
  truthy (Some text) = true ->
  substitute_custom_instructions (globals w) text = Returned g ->
  ToolsManager_init env (dict_values basic.2) = Raised e ->
  get_agent_conversation_pipeline env args (Some text) w =
    (Raised e, {| globals := g; heap := heap w; stdout := out |}).
Proof.
  intros Hbasic Htruthy Hsub Hinit. unfold get_agent_conversation_pipeline.
  rewrite Hbasic. destruct basic as [[generator tokenizer] tools_objects_map].
  rewrite Htruthy, Hsub. unfold EnhancedToolsManager_init.
  simpl in Hinit. rewrite Hinit. reflexivity.
Qed.

Lemma agent_pipeline_failure_keeps_substitution_witness :
  get_agent_conversation_pipeline
    (with_failing_manager Sample.env Sample.boom) tt (Some "Be brief.")
    Sample.world =
    (Raised Sample.boom,
     {| globals :=
          {| AGENT_SYSTEM_ROLES :=
               [ [("role", "system");
                  ("content", customised_system_content "Be brief.")] ];
             AGENT_CONVERSATION_BASE_ROLES :=
               AGENT_CONVERSATION_BASE_ROLES initial_globals |};
        heap := heap Sample.world;
        stdout :=
          [PrintFmt "Loaded config: " Sample.config;
           PrintFmt "Model config: " (PDict Sample.chat_model)] |}).
Proof.
  eapply (agent_pipeline_failure_keeps_substitution
            (with_failing_manager Sample.env Sample.boom) tt "Be brief."
            Sample.world _ _ _ Sample.boom); vm_compute; reflexivity.
Defined.
